(** * Leo Triplet 3D view: coordinate transform, tidal tail and scene

    A shallow embedding of [leo_triplet_3d.py].  The numeric code is written
    once, over an interface [Num] of the arithmetic numpy performs, and read
    at two instances:

    - [Num_R]: exact real arithmetic, the reading in which the algebraic
      identities of the program (centroid, projection, zoom) hold on the nose;
    - [Num_f64]: IEEE 754 binary64 (the kernel's primitive floats), the
      arithmetic Python and numpy execute, used wherever a statement is about
      the stored constants and can be settled by evaluation.

    [np.cos], [np.radians] and the random generators are numpy's, not the
    program's: they are variables of the development. *)

From Stdlib Require Import ZArith List String Bool Lia.
From Stdlib Require Import Reals Lra.
From Stdlib Require Import Floats.
Import ListNotations.

Set Implicit Arguments.

(* ------------------------------------------------------------------ *)
(** ** Arithmetic interface *)

Class Num (T : Type) : Type := {
  of_Z : Z -> T;            (* an int where numpy wants a float *)
  n_add : T -> T -> T;
  n_sub : T -> T -> T;
  n_mul : T -> T -> T;
  n_div : T -> T -> T;
  n_abs : T -> T;           (* np.abs *)
  n_sqrt : T -> T;          (* inside np.linalg.norm *)
  n_ltb : T -> T -> bool    (* a < b *)
}.

Declare Scope num_scope.
Delimit Scope num_scope with num.
Infix "+" := n_add : num_scope.
Infix "-" := n_sub : num_scope.
Infix "*" := n_mul : num_scope.
Infix "/" := n_div : num_scope.
Infix "<?" := n_ltb : num_scope.
Notation "# z" := (of_Z z%Z) (at level 1, z at level 0, format "# z") : num_scope.

(** A decimal literal [n/d] of the source ([0.1] is [lit 1 10]).  Over the
    reals it is the rational itself; in binary64 the correctly rounded
    quotient of two small integers is the double nearest to the decimal,
    which is the value Python's parser gives the literal. *)
Definition lit {T} `{Num T} (n d : Z) : T := (#n / #d)%num.

#[export] Instance Num_R : Num R := {|
  of_Z := IZR;
  n_add := Rplus;
  n_sub := Rminus;
  n_mul := Rmult;
  n_div := Rdiv;
  n_abs := Rabs;
  n_sqrt := R_sqrt.sqrt;
  n_ltb := fun a b => if Rlt_dec a b then true else false
|}.

(** [float(z)] for the integers of the program (all far below 2^53). *)
Definition f64_of_Z (z : Z) : float :=
  match z with
  | Z0 => PrimFloat.zero
  | Zpos _ => PrimFloat.of_uint63 (Uint63.of_Z z)
  | Zneg p => PrimFloat.opp (PrimFloat.of_uint63 (Uint63.of_Z (Zpos p)))
  end.

#[export] Instance Num_f64 : Num float := {|
  of_Z := f64_of_Z;
  n_add := PrimFloat.add;
  n_sub := PrimFloat.sub;
  n_mul := PrimFloat.mul;
  n_div := PrimFloat.div;
  n_abs := PrimFloat.abs;
  n_sqrt := PrimFloat.sqrt;
  n_ltb := PrimFloat.ltb
|}.

(* ------------------------------------------------------------------ *)
(** ** Exceptions *)

Inductive exn : Type :=
| KeyError (key : string)
| IndexError
| ValueError
| AssertionError (msg : string).

Inductive result (A : Type) : Type :=
| Ok (a : A)
| Raise (e : exn).
Arguments Ok {A} a.
Arguments Raise {A} e.

Definition bind {A B} (r : result A) (k : A -> result B) : result B :=
  match r with
  | Ok a => k a
  | Raise e => Raise e
  end.

Notation "x <- r ;; k" := (bind r (fun x => k))
  (at level 61, r at next level, right associativity).

Definition assert (b : bool) (msg : string) : result unit :=
  if b then Ok tt else Raise (AssertionError msg).

(* ------------------------------------------------------------------ *)
(** ** Dictionaries (insertion ordered, as Python's) *)

Definition dict (A : Type) := list (string * A).

Fixpoint dict_find {A} (k : string) (d : dict A) : option A :=
  match d with
  | [] => None
  | (k', v) :: d' => if String.eqb k k' then Some v else dict_find k d'
  end.

(** [d[k]] *)
Definition dict_get {A} (k : string) (d : dict A) : result A :=
  match dict_find k d with
  | Some v => Ok v
  | None => Raise (KeyError k)
  end.

(** [d[k] = v] *)
Fixpoint dict_set {A} (k : string) (v : A) (d : dict A) : dict A :=
  match d with
  | [] => [(k, v)]
  | (k', v') :: d' =>
      if String.eqb k k' then (k, v) :: d' else (k', v') :: dict_set k v d'
  end.

Definition keys {A} (d : dict A) : list string := map fst d.
Definition values {A} (d : dict A) : list A := map snd d.

(** A [for] loop whose body may raise. *)
Fixpoint for_each {A S} (xs : list A) (body : S -> A -> result S) (s : S)
  : result S :=
  match xs with
  | [] => Ok s
  | x :: xs' => s' <- body s x ;; for_each xs' body s'
  end.

(* ------------------------------------------------------------------ *)
(** ** Three-component arrays *)

Record vec3 (A : Type) : Type := Vec3 { vx : A; vy : A; vz : A }.
Arguments Vec3 {A} vx vy vz.

Definition vmap {A B} (f : A -> B) (v : vec3 A) : vec3 B :=
  Vec3 (f (vx v)) (f (vy v)) (f (vz v)).
Definition vzip {A B C} (f : A -> B -> C) (u : vec3 A) (v : vec3 B) : vec3 C :=
  Vec3 (f (vx u) (vx v)) (f (vy u) (vy v)) (f (vz u) (vz v)).

Section Arrays.
Context {T : Type} `{Num T}.
Local Open Scope num_scope.

Definition vadd (u v : vec3 T) : vec3 T := vzip n_add u v.
Definition vsub (u v : vec3 T) : vec3 T := vzip n_sub u v.
(** [v * s] and [v / s] with a scalar [s] *)
Definition vmuls (v : vec3 T) (s : T) : vec3 T := vmap (fun x => x * s) v.
Definition vdivs (v : vec3 T) (s : T) : vec3 T := vmap (fun x => x / s) v.
(** row [i] of [np.outer(t, v)] is [smulv t_i v] *)
Definition smulv (s : T) (v : vec3 T) : vec3 T := vmap (fun x => s * x) v.
(** [np.dot(u, v)] *)
Definition dot (u v : vec3 T) : T :=
  vx u * vx v + vy u * vy v + vz u * vz v.
(** [np.linalg.norm(v)] *)
Definition norm (v : vec3 T) : T := n_sqrt (dot v v).

(** [np.mean(rows, axis=0)]: the rows are added in order, the total is
    divided by their number.  numpy answers nan for no row at all; the
    model raises instead. *)
Definition np_mean_axis0 (rows : list (vec3 T)) : result (vec3 T) :=
  match rows with
  | [] => Raise ValueError
  | r :: rs => Ok (vdivs (fold_left vadd rs r) #(Z.of_nat (List.length rows)))
  end.

(** [a.max()] of an array without nan (numpy answers nan as soon as one
    element is nan; the comparison below would skip it). *)
Definition np_max (a : list T) : result T :=
  match a with
  | [] => Raise ValueError
  | x :: xs => Ok (fold_left (fun m y => if m <? y then y else m) xs x)
  end.
End Arrays.

(* ------------------------------------------------------------------ *)
(** ** Configuration *)

Record Config_t (T : Type) : Type := {
  AXIS_LIMIT : Z;
  GALAXY_SIZE : T;
  CENTER_SIZE : T;
  TAIL_POINTS : nat;
  TAIL_LENGTH : T;
  TAIL_WIDTH : T;
  TAIL_ALPHA : T;
  TAIL_COLOR : string;
  TAIL_DIRECTION : vec3 T;
  COLORS : dict string;
  ZOOM_SCALE : T
}.

(** What the calls on the 3D axes leave behind: the artists drawn, in
    order, and the three view intervals as the program last set them.
    matplotlib also moves the intervals by itself while artists are drawn on
    axes whose limits were never set; this is not part of the model, whose
    intervals are those the scroll handler reads once [setup_axes] has set
    them (from then on matplotlib leaves them to the program). *)
Inductive artist (T : Type) : Type :=
| Scatter (points : list (vec3 T)) (color : string) (s alpha : list T)
| Text (pos : vec3 T) (label : string)
| DistanceText (pos : vec3 T) (dist : T)        (* the label "<dist> kpc" *)
| Line (p q : vec3 T) (color linestyle : string).

Record Axes3D (T : Type) : Type := {
  artists : list (artist T);
  xlim3d : T * T;
  ylim3d : T * T;
  zlim3d : T * T
}.

Record LeoTripletPlotter (T : Type) : Type := {
  config : Config_t T;
  positions : dict (vec3 T);
  ax : Axes3D T
}.

(** The outcomes of the random generators: [beta_draw i] is the [i]-th
    sample [np.random.beta] hands back, [normal_draw i] the [i]-th row of
    the matrix [np.random.normal] hands back.  Nothing is assumed of them.
    ([np.random.normal] refuses a negative standard deviation with a
    ValueError; the model is of configurations whose TAIL_WIDTH it
    accepts, as the 4 of the program.) *)
Record draws (T : Type) : Type := {
  beta_draw : nat -> T;
  normal_draw : nat -> vec3 T
}.

Section Program.
Context {T : Type} `{Num T}.
Variable np_cos : T -> T.
Variable np_radians : T -> T.
Local Open Scope string_scope.
Local Open Scope num_scope.

Definition Config : Config_t T := {|
  AXIS_LIMIT := 150;
  GALAXY_SIZE := #250;
  CENTER_SIZE := #150;
  TAIL_POINTS := 2500;
  TAIL_LENGTH := #86;
  TAIL_WIDTH := #4;
  TAIL_ALPHA := lit 2 10;
  TAIL_COLOR := "#888888";
  TAIL_DIRECTION := Vec3 #1 (lit 15 100) (lit (-1) 10);
  COLORS := [ ("NGC 3628", "#2E8B57"); ("M66", "#DC143C"); ("M65", "#1E90FF");
              ("center", "#FFD700"); ("earth", "#FF8C00");
              ("triangle", "#9370DB") ];
  ZOOM_SCALE := lit 12 10
|}.

(* ---------------------------------------------------------------- *)
(** ** GalaxyData *)

Definition RA : dict T :=
  [ ("NGC 3628", #11 + #20 / #60 + #17 / #3600);
    ("M66",      #11 + #20 / #60 + #15 / #3600);
    ("M65",      #11 + #18 / #60 + #56 / #3600) ].

Definition DEC : dict T :=
  [ ("NGC 3628", #13 + #35 / #60 + #23 / #3600);
    ("M66",      #12 + #59 / #60 + #30 / #3600);
    ("M65",      #13 + #5 / #60 + #32 / #3600) ].

Definition REDSHIFT : dict Z :=
  [ ("NGC 3628", 843%Z); ("M66", 727%Z); ("M65", 807%Z) ].

Definition DISTANCE : Z := 10700.
Definition DEGREE_TO_KPC : Z := 187.

Definition get_positions_relative_to_ngc3628 : result (dict (vec3 T)) :=
  let ra_deg := map (fun '(name, hours) => (name, hours * #15)) RA in
  ra_ngc <- dict_get "NGC 3628" ra_deg ;;
  dec_ngc <- dict_get "NGC 3628" DEC ;;
  z_ngc <- dict_get "NGC 3628" REDSHIFT ;;
  for_each (keys RA)
    (fun positions name =>
       ra <- dict_get name ra_deg ;;
       let ra_offset_deg := ra - ra_ngc in
       let ra_offset_kpc :=
         ra_offset_deg * #DEGREE_TO_KPC * np_cos (np_radians dec_ngc) in
       dec <- dict_get name DEC ;;
       let dec_offset_deg := dec - dec_ngc in
       let dec_offset_kpc := dec_offset_deg * #DEGREE_TO_KPC in
       z <- dict_get name REDSHIFT ;;
       let z_offset := (z - z_ngc)%Z in
       let z_offset_kpc := #z_offset * lit 1 10 in
       Ok (dict_set name (Vec3 ra_offset_kpc dec_offset_kpc z_offset_kpc)
             positions))
    [].

(** The offset as the specification words it: the target and the reference
    are given as (RA in hours, Dec in degrees, redshift velocity in km/s);
    the RA difference is taken first and converted to degrees afterwards. *)
Definition spec_offset (target reference : T * T * Z) : vec3 T :=
  let '(ra, dec, v) := target in
  let '(ra0, dec0, v0) := reference in
  Vec3 ((ra - ra0) * #15 * #DEGREE_TO_KPC * np_cos (np_radians dec0))
       ((dec - dec0) * #DEGREE_TO_KPC)
       (#(v - v0) * lit 1 10).

Definition get_center : result (vec3 T) :=
  rel <- get_positions_relative_to_ngc3628 ;;
  np_mean_axis0 (values rel).

Definition get_positions : result (dict (vec3 T)) :=
  rel_to_ngc <- get_positions_relative_to_ngc3628 ;;
  center <- get_center ;;
  for_each rel_to_ngc
    (fun positions '(name, pos) => Ok (dict_set name (vsub pos center) positions))
    [].

Definition get_tail_direction : vec3 T :=
  Vec3 #1 (lit 15 100) (lit (-1) 10).

(** The report printed on the way is not modelled; the assertions are. *)
Definition verify_conventions : result bool :=
  positions <- get_positions ;;
  _ <- for_each positions
    (fun _ '(name, pos) =>
       if name =? "NGC 3628" then
         assert (#0 <? vy pos) "NGC 3628 should be North of center"
       else if name =? "M66" then
         _ <- assert (#0 <? vx pos) "M66 should be East of center" ;;
         assert (vy pos <? #0) "M66 should be South of center"
       else if name =? "M65" then
         _ <- assert (vx pos <? #0) "M65 should be West of center" ;;
         assert (vy pos <? #0) "M65 should be South of center"
       else Ok tt)
    tt ;;
  Ok true.

(* ---------------------------------------------------------------- *)
(** ** TidalTail *)

Definition np_random_beta (rs : draws T) (size : nat) : list T :=
  map (beta_draw rs) (seq 0 size).
Definition np_random_normal (rs : draws T) (size : nat) : list (vec3 T) :=
  map (normal_draw rs) (seq 0 size).

(** [a + b] on two arrays of rows; numpy refuses unequal shapes. *)
Fixpoint add_rows (a b : list (vec3 T)) : result (list (vec3 T)) :=
  match a, b with
  | [], [] => Ok []
  | x :: a', y :: b' => r <- add_rows a' b' ;; Ok (vadd x y :: r)
  | _, _ => Raise ValueError
  end.

(** [direction / np.linalg.norm(direction) * TAIL_LENGTH] *)
Definition tail_direction (config : Config_t T) : vec3 T :=
  let direction := TAIL_DIRECTION config in
  vmuls (vdivs direction (norm direction)) (TAIL_LENGTH config).

(** [dir_unit = direction / np.linalg.norm(direction)] *)
Definition tail_dir_unit (config : Config_t T) : vec3 T :=
  let direction := tail_direction config in
  vdivs direction (norm direction).

(** The noise matrix once its component along the tail is removed:
    [noise -= np.outer(np.dot(noise, dir_unit), dir_unit)]. *)
Definition tail_noise (config : Config_t T) (rs : draws T) : list (vec3 T) :=
  let noise := np_random_normal rs (TAIL_POINTS config) in
  let dir_unit := tail_dir_unit config in
  map (fun n => vsub n (smulv (dot n dir_unit) dir_unit)) noise.

Definition tail_curvature (t : list T) : list (vec3 T) :=
  let t_centered := map (fun ti => ti - lit 5 10) t in
  map (fun tc => Vec3 (tc * #5) (tc * #8) (n_abs tc * #5)) t_centered.

Definition generate (config : Config_t T) (rs : draws T)
    (galaxy_positions : dict (vec3 T)) : result (list (vec3 T)) :=
  ngc_pos <- dict_get "NGC 3628" galaxy_positions ;;
  let direction := tail_direction config in
  let t := np_random_beta rs (TAIL_POINTS config) in
  let points := map (fun ti => vadd ngc_pos (smulv ti direction)) t in
  let noise := tail_noise config rs in
  let curvature := tail_curvature t in
  pn <- add_rows points noise ;;
  add_rows pn curvature.

(* ---------------------------------------------------------------- *)
(** ** LeoTripletPlotter *)

(** A fresh 3D axes shows the unit cube, widened on each side by
    matplotlib's margin of 1/48. *)
Definition new_axes : Axes3D T :=
  let unit := (#0 - lit 1 48, #1 + lit 1 48) in
  {| artists := []; xlim3d := unit; ylim3d := unit; zlim3d := unit |}.

Definition draw (a : artist T) (self : LeoTripletPlotter T) : LeoTripletPlotter T :=
  {| config := config self;
     positions := positions self;
     ax := {| artists := (artists (ax self) ++ [a])%list;
              xlim3d := xlim3d (ax self);
              ylim3d := ylim3d (ax self);
              zlim3d := zlim3d (ax self) |} |}.

Definition set_lim3d (x y z : T * T) (self : LeoTripletPlotter T)
  : LeoTripletPlotter T :=
  {| config := config self;
     positions := positions self;
     ax := {| artists := artists (ax self);
              xlim3d := x; ylim3d := y; zlim3d := z |} |}.

(** [__init__] followed by [setup_figure] *)
Definition init (cfg : Config_t T) : result (LeoTripletPlotter T) :=
  ps <- get_positions ;;
  Ok {| config := cfg; positions := ps; ax := new_axes |}.

Definition plot_galaxies (self : LeoTripletPlotter T)
  : result (LeoTripletPlotter T) :=
  for_each (positions self)
    (fun self '(name, pos) =>
       color <- dict_get name (COLORS (config self)) ;;
       let self := draw (Scatter [pos] color [GALAXY_SIZE (config self)] [#1]) self in
       Ok (draw (Text pos ("  " ++ name)) self))
    self.

Definition plot_center (self : LeoTripletPlotter T)
  : result (LeoTripletPlotter T) :=
  color <- dict_get "center" (COLORS (config self)) ;;
  let self :=
    draw (Scatter [Vec3 #0 #0 #0] color [CENTER_SIZE (config self)] [#1]) self in
  Ok (draw (Text (Vec3 #0 #0 #5) "  Center") self).

Definition index {A} (l : list A) (i : nat) : result A :=
  match nth_error l i with
  | Some a => Ok a
  | None => Raise IndexError
  end.

Definition plot_triangle (self : LeoTripletPlotter T)
  : result (LeoTripletPlotter T) :=
  let names := keys (positions self) in
  coords <- for_each names
    (fun acc n => p <- dict_get n (positions self) ;; Ok (acc ++ [p])%list) [] ;;
  let edges := [(0, 1); (1, 2); (2, 0)]%nat in
  for_each edges
    (fun self '(i, j) =>
       p1 <- index coords i ;;
       p2 <- index coords j ;;
       color <- dict_get "triangle" (COLORS (config self)) ;;
       let self := draw (Line p1 p2 color "--") self in
       let mid := vdivs (vadd p1 p2) #2 in
       let dist := norm (vsub p2 p1) in
       Ok (draw (DistanceText mid dist) self))
    self.

(** Sizes and opacities of the tail markers, from their distances to
    NGC 3628. *)
Definition tail_style (cfg : Config_t T) (ngc_pos : vec3 T)
    (tail : list (vec3 T)) : result (list T * list T) :=
  let distances := map (fun p => norm (vsub p ngc_pos)) tail in
  dmax <- np_max distances ;;
  let sizes := map (fun d => #1 + #3 * (d / dmax)) distances in
  let alphas :=
    map (fun d => TAIL_ALPHA cfg * (lit 5 10 + lit 5 10 * d / dmax)) distances in
  Ok (sizes, alphas).

(** [ax.scatter] refuses opacities outside [0, 1] with a ValueError; with
    a TAIL_ALPHA between 0 and 1, as the 0.2 of the program, the opacities
    computed here are inside. *)
Definition plot_tidal_tail (rs : draws T) (self : LeoTripletPlotter T)
  : result (LeoTripletPlotter T) :=
  tail <- generate (config self) rs (positions self) ;;
  ngc_pos <- dict_get "NGC 3628" (positions self) ;;
  style <- tail_style (config self) ngc_pos tail ;;
  Ok (draw (Scatter tail (TAIL_COLOR (config self)) (fst style) (snd style)) self).

(** [plot_earth] computes on integers; matplotlib turns them into floats. *)
Definition earth_pos : vec3 Z := Vec3 0%Z 0%Z (-150)%Z.

Definition sight_lines : list (vec3 Z * vec3 Z) :=
  flat_map
    (fun x_offset =>
       map (fun y_offset =>
              let start := vzip Z.add earth_pos (Vec3 x_offset y_offset 0%Z) in
              (Vec3 (vx start) (vy start) (vz start), Vec3 0%Z 0%Z 50%Z))
           [-30; 30]%Z)
    [-30; 30]%Z.

Definition plot_earth (self : LeoTripletPlotter T)
  : result (LeoTripletPlotter T) :=
  color <- dict_get "earth" (COLORS (config self)) ;;
  let self := draw (Scatter [vmap of_Z earth_pos] color [#200] [lit 7 10]) self in
  let self :=
    draw (Text (vmap of_Z (vzip Z.add earth_pos (Vec3 0 (-20) 0)%Z)) "EARTH") self in
  Ok (fold_left
        (fun self l => draw (Line (vmap of_Z (fst l)) (vmap of_Z (snd l)) color ":") self)
        sight_lines self).

(** The limits and the note (placed in axes coordinates); labels, title,
    viewing angle and grid do not enter the model. *)
Definition setup_axes (self : LeoTripletPlotter T) : LeoTripletPlotter T :=
  let limit := AXIS_LIMIT (config self) in
  let self := set_lim3d (#(- limit), #limit) (#(- limit), #limit)
                        (#(- limit), #limit) self in
  draw (Text (Vec3 (lit 5 10) #1 #0)
          "Grey dots: Tidal Tail of NGC 3628 (approximated)") self.

(** [np.mean(limits)] of an interval *)
Definition np_mean2 (limits : T * T) : T := (fst limits + snd limits) / #2.

(** One axis of the scroll handler: the new interval has the old midpoint
    and [scale] times the old width. *)
Definition rescale (scale : T) (limits : T * T) : T * T :=
  let mid := np_mean2 limits in
  let half := (snd limits - fst limits) * scale / #2 in
  (mid - half, mid + half).

(** [on_scroll(event)], with [button] the event's [button].  Python
    refuses to divide by a ZOOM_SCALE of zero (ZeroDivisionError on an 'up'
    event); the handler is modelled for the other values of ZOOM_SCALE. *)
Definition on_scroll (button : string) (self : LeoTripletPlotter T)
  : LeoTripletPlotter T :=
  let scale :=
    if button =? "up" then #1 / ZOOM_SCALE (config self)
    else ZOOM_SCALE (config self) in
  set_lim3d (rescale scale (xlim3d (ax self)))
            (rescale scale (ylim3d (ax self)))
            (rescale scale (zlim3d (ax self))) self.

(** [enable_zoom] then registers [on_scroll] for scroll events. *)
Definition plot (cfg : Config_t T) (rs : draws T) : result (LeoTripletPlotter T) :=
  self <- init cfg ;;
  self <- plot_galaxies self ;;
  self <- plot_center self ;;
  self <- plot_triangle self ;;
  self <- plot_tidal_tail rs self ;;
  self <- plot_earth self ;;
  Ok (setup_axes self).

(** The scroll events of a session, handled one after the other. *)
Definition scroll_all (buttons : list string) (self : LeoTripletPlotter T)
  : LeoTripletPlotter T :=
  fold_left (fun self button => on_scroll button self) buttons self.

(** [main()]: the conventions are verified, then the plotter is built with
    the default configuration and drawn.  The handler around the body
    prints the exception and raises it again, so the outcome of [main] is
    the outcome of the body; [show()] waits for the window to close and
    changes nothing.  The result is the plotter that is shown. *)
Definition main (rs : draws T) : result (LeoTripletPlotter T) :=
  _ <- verify_conventions ;;
  plot Config rs.
End Program.

(** [only_draws self self' new]: [self'] is [self] with the artists [new]
    drawn on top; configuration and positions are the same. *)
Definition only_draws {T} (self self' : LeoTripletPlotter T)
    (new : list (artist T)) : Prop :=
  config self' = config self /\
  positions self' = positions self /\
  artists (ax self') = (artists (ax self) ++ new)%list.

(** numpy's functions over the reals. *)
Definition radians_R (x : R) : R := (x * PI / 180)%R.

(** The distances written on the triangle's edges, in drawing order. *)
Definition distance_labels {T} (drawn : list (artist T)) : list T :=
  flat_map (fun a => match a with DistanceText _ d => [d] | _ => [] end) drawn.

(** The sum of the rows of an array of 3-vectors, and the zero vector. *)
Definition vzero {T} `{Num T} : vec3 T := Vec3 (of_Z 0) (of_Z 0) (of_Z 0).
Definition vsum {T} `{Num T} (rows : list (vec3 T)) : vec3 T :=
  fold_left vadd rows vzero.

(** ** Sample inputs

    numpy is asked for one cosine only, that of [DEC["NGC 3628"]] turned
    into radians; [f64_cos_dec] answers with its binary64 value and
    [f64_radians] multiplies by the binary64 pi/180.  The draws put the
    first tail point halfway along the tail, all others a quarter of the
    way, with no lateral noise. *)
Definition f64_radians (x : float) : float := PrimFloat.mul x 0x1.1df46a2529d39p-6%float.
Definition f64_cos_dec (x : float) : float := 0x1.f1aa661a6aef3p-1%float.

Definition sample_draws : draws float :=
  {| beta_draw := fun i => match i with O => 0.5%float | _ => 0.25%float end;
     normal_draw := fun _ => Vec3 0%float 0%float 0%float |}.

Definition sample_draws_R : draws R :=
  {| beta_draw := fun _ => (1 / 4)%R;
     normal_draw := fun _ => Vec3 1%R 2%R 3%R |}.

(** Draws that put every tail point halfway along the tail, where the
    curvature offset vanishes. *)
Definition half_draws_R : draws R :=
  {| beta_draw := fun _ => (1 / 2)%R;
     normal_draw := fun _ => Vec3 1%R 2%R 3%R |}.

(** The marker and the label [plot_galaxies] draws for one entry of the
    positions (nothing when the configuration has no colour for it). *)
Definition galaxy_artists {T} `{Num T} (cfg : Config_t T)
    (entry : string * vec3 T) : list (artist T) :=
  match dict_find (fst entry) (COLORS cfg) with
  | Some color =>
      [ Scatter [snd entry] color [GALAXY_SIZE cfg] [of_Z 1];
        Text (snd entry) ("  " ++ fst entry) ]
  | None => []
  end.

(** The product of the scales a sequence of scroll events applies. *)
Fixpoint zoom_factor_R (zoom : R) (buttons : list string) : R :=
  match buttons with
  | [] => 1%R
  | b :: bs =>
      ((if (b =? "up")%string then 1 / zoom else zoom) * zoom_factor_R zoom bs)%R
  end.

(** Plotters to try the drawing methods on: three galaxies, two galaxies,
    and one with a galaxy the colour table does not know. *)
Definition sample_plotter : LeoTripletPlotter float :=
  {| config := Config;
     positions := [ ("NGC 3628"%string, Vec3 0%float 0%float 0%float);
                    ("M66"%string, Vec3 1%float 0%float 0%float);
                    ("M65"%string, Vec3 0%float 1%float 0%float) ];
     ax := new_axes |}.

Definition pair_plotter : LeoTripletPlotter float :=
  {| config := Config;
     positions := [ ("NGC 3628"%string, Vec3 0%float 0%float 0%float);
                    ("M66"%string, Vec3 1%float 0%float 0%float) ];
     ax := new_axes |}.

Definition stranger_plotter : LeoTripletPlotter float :=
  {| config := Config;
     positions := [ ("NGC 3628"%string, Vec3 0%float 0%float 0%float);
                    ("M81"%string, Vec3 1%float 0%float 0%float);
                    ("M65"%string, Vec3 0%float 1%float 0%float) ];
     ax := new_axes |}.

Definition sample_plotter_R : LeoTripletPlotter R :=
  setup_axes {| config := Config; positions := []; ax := new_axes |}.

(** A plotter configured for a tail of no point at all. *)
Definition no_tail_plotter : LeoTripletPlotter float :=
  {| config := {| AXIS_LIMIT := 150%Z; GALAXY_SIZE := 250%float;
                  CENTER_SIZE := 150%float;
                  TAIL_POINTS := 0; TAIL_LENGTH := 86%float; TAIL_WIDTH := 4%float;
                  TAIL_ALPHA := lit 2 10; TAIL_COLOR := "#888888"%string;
                  TAIL_DIRECTION := TAIL_DIRECTION Config;
                  COLORS := COLORS (@Config float _);
                  ZOOM_SCALE := lit 12 10 |};
     positions := [ ("NGC 3628"%string, Vec3 0%float 0%float 0%float) ];
     ax := new_axes |}.

(** Unfolds the interface at [Num_R], leaving a goal of real arithmetic. *)
Ltac to_R :=
  cbv [of_Z n_add n_sub n_mul n_div n_abs n_sqrt n_ltb Num_R lit
       vzero vsum vadd vsub vmuls vdivs smulv vzip vmap dot norm vx vy vz
       values keys map fst snd fold_left spec_offset np_mean2 rescale
       DEGREE_TO_KPC].

(* ------------------------------------------------------------------ *)
(** * Evaluation of the coordinate transform

    The tables are constants, so the transform can be run symbolically:
    the lookups and loops disappear and what is left is arithmetic, whatever
    the arithmetic is. *)

(** Lookups in a dictionary with the three galaxies as keys. *)
Lemma triplet_find_ngc {A} (a b c : A) :
  dict_find "NGC 3628" [("NGC 3628"%string, a); ("M66"%string, b); ("M65"%string, c)]
  = Some a.
Proof. reflexivity. Qed.

Lemma triplet_find_m66 {A} (a b c : A) :
  dict_find "M66" [("NGC 3628"%string, a); ("M66"%string, b); ("M65"%string, c)]
  = Some b.
Proof. reflexivity. Qed.

Lemma triplet_find_m65 {A} (a b c : A) :
  dict_find "M65" [("NGC 3628"%string, a); ("M66"%string, b); ("M65"%string, c)]
  = Some c.
Proof. reflexivity. Qed.

Lemma triplet_find_inv {A} (a b c x : A) (name : string) :
  dict_find name [("NGC 3628"%string, a); ("M66"%string, b); ("M65"%string, c)]
  = Some x ->
  (name = "NGC 3628"%string /\ x = a) \/ (name = "M66"%string /\ x = b) \/
  (name = "M65"%string /\ x = c).
Proof.
  cbn [dict_find].
  destruct (String.eqb_spec name "NGC 3628") as [-> | _];
    [intros [= <-]; auto |].
  destruct (String.eqb_spec name "M66") as [-> | _];
    [intros [= <-]; auto |].
  destruct (String.eqb_spec name "M65") as [-> | _];
    [intros [= <-]; auto | discriminate].
Qed.

Section Evaluation.
Context {T : Type} `{Num T}.
Variables np_cos np_radians : T -> T.
Local Open Scope string_scope.
Local Open Scope num_scope.

Local Abbreviation ra_ngc := (#11 + #20 / #60 + #17 / #3600).
Local Abbreviation ra_m66 := (#11 + #20 / #60 + #15 / #3600).
Local Abbreviation ra_m65 := (#11 + #18 / #60 + #56 / #3600).
Local Abbreviation dec_ngc := (#13 + #35 / #60 + #23 / #3600).
Local Abbreviation dec_m66 := (#12 + #59 / #60 + #30 / #3600).
Local Abbreviation dec_m65 := (#13 + #5 / #60 + #32 / #3600).
Local Abbreviation cos_dec := (np_cos (np_radians dec_ngc)).
Local Abbreviation rel_ngc :=
  (Vec3 ((ra_ngc * #15 - ra_ngc * #15) * #187 * cos_dec)
        ((dec_ngc - dec_ngc) * #187) (#0 * lit 1 10)).
Local Abbreviation rel_m66 :=
  (Vec3 ((ra_m66 * #15 - ra_ngc * #15) * #187 * cos_dec)
        ((dec_m66 - dec_ngc) * #187) (#(-116) * lit 1 10)).
Local Abbreviation rel_m65 :=
  (Vec3 ((ra_m65 * #15 - ra_ngc * #15) * #187 * cos_dec)
        ((dec_m65 - dec_ngc) * #187) (#(-36) * lit 1 10)).
Local Abbreviation centre :=
  (vdivs (vadd (vadd rel_ngc rel_m66) rel_m65) #3).

Lemma relative_positions_eval :
  get_positions_relative_to_ngc3628 np_cos np_radians
  = Ok [("NGC 3628", rel_ngc); ("M66", rel_m66); ("M65", rel_m65)].
Proof. reflexivity. Qed.

Lemma get_center_eval : get_center np_cos np_radians = Ok centre.
Proof. reflexivity. Qed.

Lemma get_positions_eval :
  get_positions np_cos np_radians
  = Ok [("NGC 3628", vsub rel_ngc centre); ("M66", vsub rel_m66 centre);
        ("M65", vsub rel_m65 centre)].
Proof. reflexivity. Qed.

(** The three rows of the tables, and nothing else. *)
Lemma table_entry (name : string) (ra dec : T) (v : Z) :
  dict_find name RA = Some ra ->
  dict_find name DEC = Some dec ->
  dict_find name REDSHIFT = Some v ->
  (name = "NGC 3628" /\ ra = ra_ngc /\ dec = dec_ngc /\ v = 843%Z) \/
  (name = "M66" /\ ra = ra_m66 /\ dec = dec_m66 /\ v = 727%Z) \/
  (name = "M65" /\ ra = ra_m65 /\ dec = dec_m65 /\ v = 807%Z).
Proof.
  unfold RA, DEC, REDSHIFT; simpl.
  destruct (String.eqb_spec name "NGC 3628") as [-> | _].
  { intros; left; repeat split; congruence. }
  destruct (String.eqb_spec name "M66") as [-> | _].
  { intros; right; left; repeat split; congruence. }
  destruct (String.eqb_spec name "M65") as [-> | _].
  { intros; right; right; repeat split; congruence. }
  discriminate.
Qed.

(** In any arithmetic, hence bit for bit in binary64, the offset stored for
    a galaxy is the formula with each RA converted to degrees before the
    subtraction. *)
Lemma offsets_as_written (name : string) (ra dec : T) (v : Z) :
  dict_find name RA = Some ra ->
  dict_find name DEC = Some dec ->
  dict_find name REDSHIFT = Some v ->
  exists rel,
    get_positions_relative_to_ngc3628 np_cos np_radians = Ok rel /\
    dict_find name rel
    = Some (Vec3 ((ra * #15 - ra_ngc * #15) * #DEGREE_TO_KPC * cos_dec)
                 ((dec - dec_ngc) * #DEGREE_TO_KPC)
                 (#(v - 843) * lit 1 10)).
Proof.
  intros Hra Hdec Hv.
  eexists; split; [apply relative_positions_eval |].
  destruct (table_entry _ Hra Hdec Hv)
    as [(-> & -> & -> & ->) | [(-> & -> & -> & ->) | (-> & -> & -> & ->)]];
    reflexivity.
Qed.

(** The triangle of three positions: three dashed edges, each followed by
    the label of its length. *)
Lemma plot_triangle_eval (axes : Axes3D T) (p1 p2 p3 : vec3 T) :
  exists self,
    plot_triangle
      {| config := Config;
         positions := [("NGC 3628", p1); ("M66", p2); ("M65", p3)];
         ax := axes |} = Ok self /\
    artists (ax self)
    = (artists axes ++
       [ Line p1 p2 "#9370DB" "--";
         DistanceText (vdivs (vadd p1 p2) #2) (norm (vsub p2 p1));
         Line p2 p3 "#9370DB" "--";
         DistanceText (vdivs (vadd p2 p3) #2) (norm (vsub p3 p2));
         Line p3 p1 "#9370DB" "--";
         DistanceText (vdivs (vadd p3 p1) #2) (norm (vsub p1 p3)) ])%list.
Proof.
  eexists; split; [reflexivity |].
  cbn [ax artists draw]. now rewrite <- !app_assoc.
Qed.
End Evaluation.

(* ------------------------------------------------------------------ *)
(** * Exact arithmetic: the algebra of the coordinate transform *)

Section Exact.
Variables np_cos np_radians : R -> R.
Local Open Scope string_scope.
Local Open Scope R_scope.

(** Subtracting the mean of three vectors from each leaves vectors that
    add up to nothing. *)
Lemma centroid_cancels (a b c : vec3 R) :
  let m := vdivs (vadd (vadd a b) c) (of_Z 3) in
  vsum [vsub a m; vsub b m; vsub c m] = vzero.
Proof. destruct a, b, c; to_R; f_equal; field. Qed.

(** Subtracting one vector from two others does not change their
    difference. *)
Lemma translation_invariance (a b m : vec3 R) :
  vsub (vsub a m) (vsub b m) = vsub a b.
Proof. destruct a, b, m; to_R; f_equal; ring. Qed.

(** C1. The three centroid-relative positions that [get_positions] returns
    for the fixed galaxy table add up, component by component, to the zero
    vector: in exact arithmetic the sum is zero on the nose, whatever value
    the cosine takes. *)
Theorem centered_positions_sum_to_zero :
  exists ps,
    get_positions np_cos np_radians = Ok ps /\
    keys ps = ["NGC 3628"; "M66"; "M65"] /\
    vsum (values ps) = vzero.
Proof.
  eexists; split; [apply get_positions_eval |].
  split; [reflexivity |].
  apply centroid_cancels.
Qed.

(** C2. For every galaxy of the table, the offset that
    [get_positions_relative_to_ngc3628] stores under its name is the one the
    specification describes: east = (RA - reference RA) x 15 x DEGREE_TO_KPC
    x cos(reference Dec in radians), north = (Dec - reference Dec) x
    DEGREE_TO_KPC, line of sight = (velocity - reference velocity) x 0.1.
    The code converts each RA to degrees before subtracting, the formula
    after; over the reals the two agree. *)
Theorem offsets_follow_the_formula :
  exists rel,
    get_positions_relative_to_ngc3628 np_cos np_radians = Ok rel /\
    keys rel = keys (@RA R _) /\
    forall name ra dec v ra0 dec0 v0,
      dict_find name RA = Some ra ->
      dict_find name DEC = Some dec ->
      dict_find name REDSHIFT = Some v ->
      dict_find "NGC 3628" RA = Some ra0 ->
      dict_find "NGC 3628" DEC = Some dec0 ->
      dict_find "NGC 3628" REDSHIFT = Some v0 ->
      dict_find name rel
      = Some (spec_offset np_cos np_radians (ra, dec, v) (ra0, dec0, v0)).
Proof.
  eexists; split; [apply relative_positions_eval |].
  split; [reflexivity |].
  intros name ra dec v ra0 dec0 v0 Hra Hdec Hv Hra0 Hdec0 Hv0.
  injection Hra0 as <-; injection Hdec0 as <-; injection Hv0 as <-.
  destruct (table_entry _ Hra Hdec Hv)
    as [(-> & -> & -> & ->) | [(-> & -> & -> & ->) | (-> & -> & -> & ->)]];
    [rewrite triplet_find_ngc | rewrite triplet_find_m66 | rewrite triplet_find_m65];
    f_equal; to_R; f_equal; ring.
Qed.

(** C10. Centering is a translation: for any two galaxies the difference of
    their centered positions is the difference of their offsets from
    NGC 3628, so the norms agree too, and the three lengths that
    [plot_triangle] writes on the edges of the centered triangle are the
    distances between the galaxies before centering. *)
Theorem centering_preserves_differences :
  exists rel ps,
    get_positions_relative_to_ngc3628 np_cos np_radians = Ok rel /\
    get_positions np_cos np_radians = Ok ps /\
    (forall a b ra rb pa pb,
        dict_find a rel = Some ra -> dict_find b rel = Some rb ->
        dict_find a ps = Some pa -> dict_find b ps = Some pb ->
        vsub pb pa = vsub rb ra /\ norm (vsub pb pa) = norm (vsub rb ra)) /\
    exists r1 r2 r3,
      rel = [("NGC 3628", r1); ("M66", r2); ("M65", r3)] /\
      forall axes, exists self,
        plot_triangle {| config := Config; positions := ps; ax := axes |}
        = Ok self /\
        distance_labels (artists (ax self))
        = (distance_labels (artists axes) ++
           [norm (vsub r2 r1); norm (vsub r3 r2); norm (vsub r1 r3)])%list.
Proof.
  eexists; eexists.
  split; [apply relative_positions_eval |].
  split; [apply get_positions_eval |].
  split.
  - intros a b ra rb pa pb Ha Hb Hpa Hpb.
    assert (vsub pb pa = vsub rb ra) as E.
    { apply triplet_find_inv in Ha, Hb.
      destruct Ha as [(-> & ->) | [(-> & ->) | (-> & ->)]];
        (rewrite ?triplet_find_ngc, ?triplet_find_m66, ?triplet_find_m65 in Hpa;
         injection Hpa as <-);
        destruct Hb as [(-> & ->) | [(-> & ->) | (-> & ->)]];
        (rewrite ?triplet_find_ngc, ?triplet_find_m66, ?triplet_find_m65 in Hpb;
         injection Hpb as <-);
        apply translation_invariance. }
    split; [exact E | unfold norm; now rewrite E].
  - do 3 eexists; split; [reflexivity |].
    intros axes.
    edestruct (plot_triangle_eval axes) as (self & Hrun & Hart).
    exists self; split; [exact Hrun |].
    rewrite Hart. unfold distance_labels.
    rewrite flat_map_app. f_equal. cbn [flat_map app].
    unfold norm. now rewrite !translation_invariance.
Qed.
End Exact.

(* ------------------------------------------------------------------ *)
(** * Exact arithmetic: the tidal tail *)

Section ExactTail.
Local Open Scope R_scope.

Lemma dot_self_nonneg (v : vec3 R) : 0 <= dot v v.
Proof. destruct v; to_R; nra. Qed.

Lemma norm_square (v : vec3 R) : norm v * norm v = dot v v.
Proof. unfold norm; cbn [n_sqrt Num_R]. apply sqrt_sqrt, dot_self_nonneg. Qed.

Lemma norm_pos (v : vec3 R) : 0 < dot v v -> 0 < norm v.
Proof. intros Hv; unfold norm; cbn [n_sqrt Num_R]. now apply sqrt_lt_R0. Qed.

Lemma norm_nonneg (v : vec3 R) : 0 <= norm v.
Proof. unfold norm; cbn [n_sqrt Num_R]. apply sqrt_pos. Qed.

(** Dividing a vector by its length gives a unit vector. *)
Lemma normalized_is_unit (v : vec3 R) :
  0 < dot v v -> dot (vdivs v (norm v)) (vdivs v (norm v)) = 1.
Proof.
  intros Hv.
  pose proof (norm_square v) as Hsq. pose proof (norm_pos Hv) as Hn.
  revert Hsq Hn. generalize (norm v) as s. destruct v as [x y z].
  to_R. intros s Hsq Hn.
  replace (x / s * (x / s) + y / s * (y / s) + z / s * (z / s))
    with ((x * x + y * y + z * z) / (s * s)) by (field; lra).
  rewrite <- Hsq. field; lra.
Qed.

Lemma dot_rescaled (v : vec3 R) (s l : R) :
  s <> 0 ->
  dot (vmuls (vdivs v s) l) (vmuls (vdivs v s) l) = dot v v * ((l / s) * (l / s)).
Proof. intros Hs; destruct v; to_R; field; exact Hs. Qed.

(** What is left of a row once its component along a unit vector is
    taken away has no component along it. *)
Lemma residual_orthogonal (u n : vec3 R) :
  dot u u = 1 -> dot (vsub n (smulv (dot n u) u)) u = 0.
Proof.
  destruct u as [a b c], n as [x y z]; to_R; intros Hu.
  replace ((x - (x * a + y * b + z * c) * a) * a +
           (y - (x * a + y * b + z * c) * b) * b +
           (z - (x * a + y * b + z * c) * c) * c)
    with ((x * a + y * b + z * c) * (1 - (a * a + b * b + c * c))) by ring.
  rewrite Hu; ring.
Qed.

Lemma dot_vdivs_r (n v : vec3 R) (s : R) :
  s <> 0 -> dot n v = dot n (vdivs v s) * s.
Proof. intros Hs; destruct n, v; to_R; field; exact Hs. Qed.

Lemma dot_vmuls_vdivs_r (n v : vec3 R) (s l : R) :
  s <> 0 -> l <> 0 -> dot n v = dot n (vmuls (vdivs v s) l) * (s / l).
Proof. intros Hs Hl; destruct n, v; to_R; field; split; assumption. Qed.

Lemma tail_direction_nonzero (cfg : Config_t R) :
  0 < dot (TAIL_DIRECTION cfg) (TAIL_DIRECTION cfg) ->
  TAIL_LENGTH cfg <> 0 ->
  0 < dot (tail_direction cfg) (tail_direction cfg).
Proof.
  intros HD HL. unfold tail_direction.
  pose proof (norm_pos HD) as Hn.
  rewrite dot_rescaled by lra.
  apply Rmult_lt_0_compat; [exact HD |].
  assert (TAIL_LENGTH cfg / norm (TAIL_DIRECTION cfg) <> 0) as Hq.
  { unfold Rdiv. apply Rmult_integral_contrapositive_currified;
      [exact HL | apply Rinv_neq_0_compat; lra]. }
  nra.
Qed.

(** C6. Whatever noise matrix is drawn, once [generate] has subtracted
    from each row its component along the unit tail direction, the row is
    orthogonal to the tail: its dot product with the unit direction, with
    the scaled direction and with the configured direction is zero.  This
    holds for every configuration whose direction and length are not
    zero. *)
Theorem tail_noise_is_perpendicular (cfg : Config_t R) (rs : draws R) :
  0 < dot (TAIL_DIRECTION cfg) (TAIL_DIRECTION cfg) ->
  TAIL_LENGTH cfg <> 0 ->
  Forall (fun row =>
            dot row (tail_dir_unit cfg) = 0 /\
            dot row (tail_direction cfg) = 0 /\
            dot row (TAIL_DIRECTION cfg) = 0)
         (tail_noise cfg rs).
Proof.
  intros HD HL.
  pose proof (tail_direction_nonzero cfg HD HL) as Hdir.
  pose proof (norm_pos Hdir) as Hn.
  pose proof (norm_pos HD) as HnD.
  apply Forall_forall. intros row Hin.
  unfold tail_noise in Hin. apply in_map_iff in Hin as (n & <- & _).
  assert (dot (vsub n (smulv (dot n (tail_dir_unit cfg)) (tail_dir_unit cfg)))
              (tail_dir_unit cfg) = 0) as Hu.
  { apply residual_orthogonal. unfold tail_dir_unit.
    now apply normalized_is_unit. }
  assert (dot (vsub n (smulv (dot n (tail_dir_unit cfg)) (tail_dir_unit cfg)))
              (tail_direction cfg) = 0) as Hd.
  { rewrite (dot_vdivs_r _ (tail_direction cfg) (s := norm (tail_direction cfg)))
      by lra.
    fold (tail_dir_unit cfg). rewrite Hu; ring. }
  repeat split; [exact Hu | exact Hd |].
  rewrite (dot_vmuls_vdivs_r _ (TAIL_DIRECTION cfg)
             (s := norm (TAIL_DIRECTION cfg)) (l := TAIL_LENGTH cfg))
    by (lra || exact HL).
  fold (tail_direction cfg). rewrite Hd; ring.
Qed.

(** [a.max()] is an element of the array and bounds every element. *)
Lemma np_max_spec (x : R) (xs : list R) :
  let m := fold_left (fun m y => if (m <? y)%num then y else m) xs x in
  In m (x :: xs) /\ forall y, In y (x :: xs) -> y <= m.
Proof.
  cbv zeta.
  revert x; induction xs as [| a xs IH]; intros x; cbn [fold_left].
  - split; [now left | intros y [<- | []]; lra].
  - change (x <? a)%num with (if Rlt_dec x a then true else false).
    destruct (Rlt_dec x a) as [Hlt | Hge].
    + destruct (IH a) as [Hin Hle]. split.
      * right; exact Hin.
      * intros y [<- | Hy]; [| now apply Hle].
        specialize (Hle a (or_introl eq_refl)). lra.
    + destruct (IH x) as [Hin Hle]. split.
      * destruct Hin as [<- | Hin]; [now left | right; now right].
      * intros y [<- | [<- | Hy]].
        -- apply Hle; now left.
        -- specialize (Hle x (or_introl eq_refl)). lra.
        -- apply Hle; now right.
Qed.

(** What [tail_style] computes grows with the distance d from NGC 3628:
    the size is 1 + 3 d/dmax and the opacity TAIL_ALPHA (0.5 + 0.5 d/dmax),
    with dmax the largest distance. *)
Lemma tail_style_grows_with_distance (cfg : Config_t R)
    (ngc_pos : vec3 R) (tail : list (vec3 R)) :
  0 < TAIL_ALPHA cfg ->
  Exists (fun p => 0 < norm (vsub p ngc_pos)) tail ->
  exists dmax,
    0 < dmax /\
    (exists p, In p tail /\ norm (vsub p ngc_pos) = dmax) /\
    (forall p, In p tail -> 0 <= norm (vsub p ngc_pos) <= dmax) /\
    let size := fun p => 1 + 3 * (norm (vsub p ngc_pos) / dmax) in
    let alpha := fun p =>
      TAIL_ALPHA cfg * (5 / 10 + 5 / 10 * norm (vsub p ngc_pos) / dmax) in
    tail_style cfg ngc_pos tail = Ok (map size tail, map alpha tail) /\
    (forall p, In p tail ->
       1 <= size p <= 4 /\
       5 / 10 * TAIL_ALPHA cfg <= alpha p <= TAIL_ALPHA cfg) /\
    (forall p q, In p tail -> In q tail ->
       norm (vsub p ngc_pos) < norm (vsub q ngc_pos) ->
       size p < size q /\ alpha p < alpha q) /\
    (forall p, In p tail -> norm (vsub p ngc_pos) = dmax ->
       size p = 4 /\ alpha p = TAIL_ALPHA cfg).
Proof.
  intros Ha Hfar.
  set (d := fun p => norm (vsub p ngc_pos)).
  remember (map d tail) as ds eqn:Hds.
  destruct ds as [| x xs].
  { destruct tail; [inversion Hfar | discriminate]. }
  destruct (np_max_spec x xs) as [Hin Hle].
  set (m := fold_left (fun m y => if (m <? y)%num then y else m) xs x) in *.
  assert (forall p, In p tail -> d p <= m) as Hbound.
  { intros p Hp. apply Hle. rewrite Hds. now apply in_map. }
  assert (0 < m) as Hm.
  { apply Exists_exists in Hfar as (p & Hp & Hpos).
    specialize (Hbound p Hp). unfold d in Hbound. lra. }
  exists m. split; [exact Hm |]. split.
  { rewrite Hds in Hin. apply in_map_iff in Hin as (p & Hp & Hin).
    exists p; split; [exact Hin | exact Hp]. }
  split.
  { intros p Hp; split; [apply norm_nonneg | now apply Hbound]. }
  cbv zeta. split.
  { unfold tail_style. fold d. rewrite <- Hds. cbn [np_max bind]. fold m.
    rewrite Hds, !map_map. reflexivity. }
  assert (forall p, In p tail -> 0 <= d p / m <= 1) as Hratio.
  { intros p Hp. specialize (Hbound p Hp).
    assert (0 <= d p) by apply norm_nonneg.
    split; [apply Rmult_le_pos; [lra | left; now apply Rinv_0_lt_compat] |].
    apply Rmult_le_reg_r with m; [exact Hm |]. field_simplify; lra. }
  unfold d in Hratio.
  assert (forall r, 5 / 10 * r / m = 5 / 10 * (r / m)) as Hassoc
      by (intros r; field; lra).
  revert Ha. generalize (TAIL_ALPHA cfg). intros a Ha.
  split; [| split].
  - intros p Hp. specialize (Hratio p Hp). rewrite Hassoc.
    revert Hratio. generalize (norm (vsub p ngc_pos) / m). intros r Hr.
    split; [lra | split; nra].
  - intros p q Hp Hq Hlt.
    assert (norm (vsub p ngc_pos) / m < norm (vsub q ngc_pos) / m) as Hs.
    { apply Rmult_lt_compat_r; [now apply Rinv_0_lt_compat | exact Hlt]. }
    rewrite !Hassoc. split; [lra |].
    apply Rmult_lt_compat_l; [exact Ha | lra].
  - intros p Hp ->. split; field; lra.
Qed.

(** The interval keeps its midpoint under [rescale], whatever the scale. *)
Lemma rescale_keeps_midpoint (scale : R) (limits : R * R) :
  np_mean2 (rescale scale limits) = np_mean2 limits.
Proof. destruct limits; to_R; field. Qed.

(** Rescaling by [s] and by [1/s], in either order, is the identity. *)
Lemma rescale_round_trip (s : R) (limits : R * R) :
  s <> 0 ->
  rescale (1 / s) (rescale s limits) = limits /\
  rescale s (rescale (1 / s) limits) = limits.
Proof. intros Hs; destruct limits; to_R; split; f_equal; field; exact Hs. Qed.

(** C8. From any view intervals, a scroll that zooms out by ZOOM_SCALE
    followed by one that zooms in by 1/ZOOM_SCALE puts the three intervals
    back where they were (the plotter is left unchanged altogether), and so
    does the opposite order; each single scroll keeps the midpoint of each
    of the three intervals.  This needs [ZOOM_SCALE] not to be zero. *)
Theorem zoom_out_then_in_restores_limits (self : LeoTripletPlotter R) :
  ZOOM_SCALE (config self) <> 0 ->
  on_scroll "up" (on_scroll "down" self) = self /\
  on_scroll "down" (on_scroll "up" self) = self /\
  forall button,
    np_mean2 (xlim3d (ax (on_scroll button self))) = np_mean2 (xlim3d (ax self)) /\
    np_mean2 (ylim3d (ax (on_scroll button self))) = np_mean2 (ylim3d (ax self)) /\
    np_mean2 (zlim3d (ax (on_scroll button self))) = np_mean2 (zlim3d (ax self)).
Proof.
  intros Hz. destruct self as [cfg ps [drawn xl yl zl]].
  cbn [config] in Hz.
  split; [| split].
  - unfold on_scroll, set_lim3d; cbn.
    now rewrite !(proj1 (rescale_round_trip _ Hz)).
  - unfold on_scroll, set_lim3d; cbn.
    now rewrite !(proj2 (rescale_round_trip _ Hz)).
  - intros button. unfold on_scroll, set_lim3d; cbn [ax xlim3d ylim3d zlim3d].
    now rewrite !rescale_keeps_midpoint.
Qed.
End ExactTail.

(* ------------------------------------------------------------------ *)
(** * Shapes and fixed decorations, in any arithmetic *)

Section Shape.
Context {T : Type} `{Num T}.
Local Open Scope string_scope.
Local Open Scope num_scope.

Lemma add_rows_same_length (a b : list (vec3 T)) :
  List.length a = List.length b ->
  exists r, add_rows a b = Ok r /\ List.length r = List.length a.
Proof.
  revert b; induction a as [| x a IH]; intros [| y b] Hl; try discriminate.
  - now exists [].
  - injection Hl as Hl. destruct (IH b Hl) as (r & Hr & Hlen).
    exists (vadd x y :: r). cbn [add_rows]. rewrite Hr. cbn [bind List.length].
    now rewrite Hlen.
Qed.

Lemma generate_length (cfg : Config_t T) (rs : draws T)
    (galaxy_positions : dict (vec3 T)) (ngc_pos : vec3 T) :
  dict_find "NGC 3628" galaxy_positions = Some ngc_pos ->
  exists tail,
    generate cfg rs galaxy_positions = Ok tail /\
    List.length tail = TAIL_POINTS cfg.
Proof.
  intros Hngc. unfold generate, dict_get. rewrite Hngc. cbn [bind].
  set (n := TAIL_POINTS cfg).
  set (points := map _ (np_random_beta rs n)).
  assert (List.length points = n) as Hp
      by (unfold points, np_random_beta; now rewrite !length_map, length_seq).
  assert (List.length (tail_noise cfg rs) = n) as Hn
      by (unfold tail_noise, np_random_normal; fold n;
          now rewrite !length_map, length_seq).
  assert (List.length (tail_curvature (np_random_beta rs n)) = n) as Hc
      by (unfold tail_curvature, np_random_beta;
          now rewrite !length_map, length_seq).
  destruct (add_rows_same_length points (tail_noise cfg rs)) as (pn & Hpn & Hlpn);
    [congruence |].
  rewrite Hpn; cbn [bind].
  destruct (add_rows_same_length pn (tail_curvature (np_random_beta rs n)))
    as (tail & Htail & Hltail); [congruence |].
  exists tail; split; [exact Htail | congruence].
Qed.

(** C5. Whatever the random generators return, [generate] with the
    configuration of the program, called on positions that hold NGC 3628,
    returns a point cloud (it raises nothing) of exactly TAIL_POINTS = 2500
    rows, each a 3-component vector. *)
Theorem generate_returns_tail_points (rs : draws T)
    (galaxy_positions : dict (vec3 T)) (ngc_pos : vec3 T) :
  dict_find "NGC 3628" galaxy_positions = Some ngc_pos ->
  exists tail : list (vec3 T),
    generate Config rs galaxy_positions = Ok tail /\
    List.length tail = 2500%nat.
Proof.
  intros Hngc.
  destruct (generate_length Config rs galaxy_positions Hngc) as (tail & Hg & Hl).
  exists tail; split; [exact Hg | exact Hl].
Qed.

Lemma sight_lines_eval :
  sight_lines
  = [ (Vec3 (-30) (-30) (-150), Vec3 0 0 50); (Vec3 (-30) 30 (-150), Vec3 0 0 50);
      (Vec3 30 (-30) (-150), Vec3 0 0 50); (Vec3 30 30 (-150), Vec3 0 0 50) ]%Z.
Proof. reflexivity. Qed.

(** C9, as the code has it.  The Earth marker sits at (0, 0, -150) on the
    negative line-of-sight axis.  Four dotted lines start at the corners
    (+-30, +-30, -150) around it and all end at the same point (0, 0, 50),
    on the line of sight 50 kpc beyond the centroid; [plot_earth] draws the
    marker, its label and these four lines, in this order. *)
Theorem earth_marker_and_sight_lines
    (ps : dict (vec3 T)) (axes : Axes3D T) :
  earth_pos = (Vec3 0 0 (-150))%Z /\
  sight_lines
  = [ (Vec3 (-30) (-30) (-150), Vec3 0 0 50); (Vec3 (-30) 30 (-150), Vec3 0 0 50);
      (Vec3 30 (-30) (-150), Vec3 0 0 50); (Vec3 30 30 (-150), Vec3 0 0 50) ]%Z /\
  exists self,
    plot_earth {| config := Config; positions := ps; ax := axes |} = Ok self /\
    artists (ax self)
    = (artists axes ++
       Scatter [Vec3 #0 #0 #(-150)] "#FF8C00" [#200] [lit 7 10]
       :: Text (Vec3 #0 #(-20) #(-150)) "EARTH"
       :: map (fun l => Line (vmap of_Z (fst l)) (vmap of_Z (snd l)) "#FF8C00" ":")
              sight_lines)%list.
Proof.
  split; [reflexivity |]. split; [exact sight_lines_eval |].
  eexists; split; [reflexivity |].
  rewrite sight_lines_eval.
  cbn [ax artists draw fold_left map fst snd]. now rewrite <- !app_assoc.
Qed.
End Shape.

(** C9, the sentence as written fails: the four sight-lines do not end at
    the centroid (0, 0, 0). *)
Lemma sight_lines_do_not_end_at_the_centroid :
  ~ Forall (fun l => snd l = (Vec3 0 0 0)%Z) sight_lines.
Proof.
  intros Hall. apply Forall_inv in Hall. discriminate Hall.
Qed.

(* ------------------------------------------------------------------ *)
(** * Exact arithmetic: the tail layer *)

Section ExactTailLayer.
Local Open Scope string_scope.
Local Open Scope R_scope.

(** C7, as the code has it.  With the configuration of the program and a
    cloud that has a point away from NGC 3628, [plot_tidal_tail] draws one
    scatter layer, on top of what was drawn before: the 2500 points of the
    cloud in the tail colour, the marker of a point at distance d from
    NGC 3628 having size 1 + 3 d/dmax and opacity TAIL_ALPHA (0.5 + 0.5
    d/dmax), with dmax > 0 the largest distance in the cloud and TAIL_ALPHA
    = 0.2.  So the markers grow and gain opacity with the distance: sizes
    lie in [1, 4] and opacities in [0.5, 1] x TAIL_ALPHA, a point farther
    from the galaxy is strictly larger and more opaque than a nearer one,
    and the farthest point has size 4 and the full TAIL_ALPHA. *)
Theorem tail_markers_grow_with_distance (rs : draws R)
    (ps : dict (vec3 R)) (axes : Axes3D R) (ngc_pos : vec3 R) :
  dict_find "NGC 3628" ps = Some ngc_pos ->
  (exists tail p,
     generate Config rs ps = Ok tail /\ In p tail /\
     0 < norm (vsub p ngc_pos)) ->
  exists tail dmax self',
    generate Config rs ps = Ok tail /\
    List.length tail = 2500%nat /\
    TAIL_ALPHA (@Config R _) = 2 / 10 /\
    0 < dmax /\
    (exists p, In p tail /\ norm (vsub p ngc_pos) = dmax) /\
    (forall p, In p tail -> 0 <= norm (vsub p ngc_pos) <= dmax) /\
    let size := fun p => 1 + 3 * (norm (vsub p ngc_pos) / dmax) in
    let alpha := fun p =>
      TAIL_ALPHA Config * (5 / 10 + 5 / 10 * norm (vsub p ngc_pos) / dmax) in
    plot_tidal_tail rs {| config := Config; positions := ps; ax := axes |}
    = Ok self' /\
    artists (ax self')
    = (artists axes
       ++ [Scatter tail "#888888" (map size tail) (map alpha tail)])%list /\
    (forall p, In p tail ->
       1 <= size p <= 4 /\
       5 / 10 * TAIL_ALPHA Config <= alpha p <= TAIL_ALPHA Config) /\
    (forall p q, In p tail -> In q tail ->
       norm (vsub p ngc_pos) < norm (vsub q ngc_pos) ->
       size p < size q /\ alpha p < alpha q) /\
    (forall p, In p tail -> norm (vsub p ngc_pos) = dmax ->
       size p = 4 /\ alpha p = TAIL_ALPHA Config).
Proof.
  intros Hngc (tail0 & p0 & Hgen0 & Hp0 & Hfar0).
  destruct (generate_length Config rs ps Hngc) as (tail & Hgen & Hlen).
  assert (tail0 = tail) as -> by congruence.
  assert (TAIL_ALPHA (@Config R _) = 2 / 10) as Halpha by reflexivity.
  assert (0 < TAIL_ALPHA (@Config R _)) as Ha by (rewrite Halpha; lra).
  destruct (@tail_style_grows_with_distance Config ngc_pos tail Ha)
    as (dmax & Hpos & Hmax & Hb & Hstyle & Hbounds & Hmono & Hfarthest).
  { apply Exists_exists. exists p0. split; assumption. }
  cbv zeta in Hstyle, Hbounds, Hmono, Hfarthest.
  eexists tail, dmax, _.
  split; [exact Hgen |]. split; [exact Hlen |]. split; [exact Halpha |].
  split; [exact Hpos |]. split; [exact Hmax |]. split; [exact Hb |].
  cbv zeta. split.
  { unfold plot_tidal_tail. cbn [config positions]. rewrite Hgen. cbn [bind].
    unfold dict_get. rewrite Hngc. cbn [bind]. rewrite Hstyle. cbn [bind fst snd].
    reflexivity. }
  split; [reflexivity |].
  split; [exact Hbounds |]. split; [exact Hmono | exact Hfarthest].
Qed.
End ExactTailLayer.

(* ------------------------------------------------------------------ *)
(** * Binary64: what Python computes from the constants *)

(** The decimal literals of the source, as [lit] reads them, are the
    doubles Python's parser produces. *)
Lemma literals_f64 :
  (lit 1 10 : float) = 0x1.999999999999ap-4%float /\
  (lit 2 10 : float) = 0x1.999999999999ap-3%float /\
  (lit 15 100 : float) = 0x1.3333333333333p-3%float /\
  (lit 12 10 : float) = 0x1.3333333333333p+0%float /\
  (lit 5 10 : float) = 0.5%float.
Proof. repeat split; reflexivity. Qed.

(** Zero times a finite double is a zero. *)
Lemma f64_zero_times_finite (c : float) :
  PrimFloat.is_finite c = true ->
  PrimFloat.eqb (PrimFloat.mul 0 c) 0 = true.
Proof.
  unfold is_finite, is_nan, is_infinity.
  rewrite !eqb_spec, abs_spec, mul_spec.
  change (Prim2SF 0) with (S754_zero false).
  change (Prim2SF infinity) with (S754_infinity false).
  destruct (Prim2SF c) as [s | s | | s m e]; intros Hfin.
  - destruct s; reflexivity.
  - destruct s; discriminate Hfin.
  - discriminate Hfin.
  - destruct s; reflexivity.
Qed.

Section Binary64.
Variables np_cos np_radians : float -> float.
Local Open Scope string_scope.

(** C3. With the constants of the tables, the entry of NGC 3628 in the
    result of [get_positions_relative_to_ngc3628] is the zero vector in
    binary64 itself, with no rounding to allow for: the north and
    line-of-sight components are +0.0, and the east component, 0.0 times
    the cosine, compares equal to zero as soon as numpy's cosine is a finite
    number. *)
Theorem reference_offset_is_exactly_zero :
  (forall dec, dict_find "NGC 3628" (@DEC float _) = Some dec ->
               PrimFloat.is_finite (np_cos (np_radians dec)) = true) ->
  exists rel p,
    get_positions_relative_to_ngc3628 np_cos np_radians = Ok rel /\
    dict_find "NGC 3628" rel = Some p /\
    PrimFloat.eqb (vx p) 0 = true /\ vy p = 0%float /\ vz p = 0%float.
Proof.
  intros Hcos.
  eexists; eexists.
  split; [apply relative_positions_eval |].
  split; [reflexivity |].
  cbn [vx vy vz].
  split; [| split; reflexivity].
  specialize (Hcos _ eq_refl). revert Hcos.
  generalize (np_cos
                (np_radians (of_Z 13 + of_Z 35 / of_Z 60 + of_Z 23 / of_Z 3600)%num)).
  intros c Hc.
  change (PrimFloat.eqb (PrimFloat.mul 0 c) 0 = true).
  now apply f64_zero_times_finite.
Qed.

(** C4. After centering, the north component of NGC 3628 is strictly
    positive and those of M66 and M65 strictly negative, in the binary64
    values Python computes; they do not depend on the cosine.  Hence
    [verify_conventions] never fails an assertion about North or South:
    it returns True, or stops at one of the two East/West assertions. *)
Theorem north_signs_after_centering :
  exists p_ngc p_m66 p_m65,
    get_positions np_cos np_radians
    = Ok [("NGC 3628", p_ngc); ("M66", p_m66); ("M65", p_m65)] /\
    PrimFloat.ltb 0 (vy p_ngc) = true /\
    PrimFloat.ltb (vy p_m66) 0 = true /\
    PrimFloat.ltb (vy p_m65) 0 = true /\
    (verify_conventions np_cos np_radians = Ok true \/
     verify_conventions np_cos np_radians
     = Raise (AssertionError "M66 should be East of center") \/
     verify_conventions np_cos np_radians
     = Raise (AssertionError "M65 should be West of center")).
Proof.
  do 3 eexists. split; [apply get_positions_eval |].
  split; [vm_compute; reflexivity |].
  split; [vm_compute; reflexivity |].
  split; [vm_compute; reflexivity |].
  unfold verify_conventions. rewrite get_positions_eval.
  cbn [bind for_each String.eqb Ascii.eqb Bool.eqb vx vy vz vsub vzip].
  repeat match goal with
  | |- context [assert ?b "NGC 3628 should be North of center"] =>
      replace b with true by (vm_compute; reflexivity)
  | |- context [assert ?b "M66 should be South of center"] =>
      replace b with true by (vm_compute; reflexivity)
  | |- context [assert ?b "M65 should be South of center"] =>
      replace b with true by (vm_compute; reflexivity)
  end.
  cbn [assert bind].
  match goal with
  | |- context [assert ?b "M66 should be East of center"] => destruct b
  end; cbn [assert bind]; [| auto].
  match goal with
  | |- context [assert ?b "M65 should be West of center"] => destruct b
  end; cbn [assert bind]; auto.
Qed.

(** Whatever the cosine, the north components of the centered positions
    add up to 0.0 and the line-of-sight components to 2^-51. *)
Lemma centered_sum_north_los_f64 :
  exists ps,
    get_positions np_cos np_radians = Ok ps /\
    vy (vsum (values ps)) = 0%float /\
    vz (vsum (values ps)) = 0x1p-51%float.
Proof.
  eexists; split; [apply get_positions_eval |].
  split; vm_compute; reflexivity.
Qed.
End Binary64.

(** ** Rounding, measured

    The identities of the exact sections hold in binary64 up to rounding.
    With the sample cosine the run of the program can be followed bit by
    bit. *)

(** The centered positions add up to (0, 0, 2^-51): one rounding error in
    the line-of-sight component, none in the others. *)
Lemma centered_sum_f64 :
  exists ps,
    get_positions f64_cos_dec f64_radians = Ok ps /\
    vsum (values ps) = Vec3 0%float 0%float 0x1p-51%float.
Proof. eexists; split; vm_compute; reflexivity. Qed.

(** The east offset of M66: converting to degrees before the subtraction
    (the code) or after it (the formula) gives doubles that agree to eleven
    digits and differ beyond. *)
Lemma east_offset_m66_f64 :
  exists rel p ra dec ra0 dec0,
    get_positions_relative_to_ngc3628 f64_cos_dec f64_radians = Ok rel /\
    dict_find "M66" rel = Some p /\
    dict_find "M66" (@RA float _) = Some ra /\
    dict_find "M66" (@DEC float _) = Some dec /\
    dict_find "NGC 3628" (@RA float _) = Some ra0 /\
    dict_find "NGC 3628" (@DEC float _) = Some dec0 /\
    vx p = (-0x1.83c3b3d271ce1p+0)%float /\
    PrimFloat.ltb
      (PrimFloat.abs
         (PrimFloat.sub
            (vx p)
            (vx (spec_offset f64_cos_dec f64_radians
                   (ra, dec, 727%Z) (ra0, dec0, 843%Z)))))
      0x1p-39%float = true /\
    PrimFloat.eqb
      (vx p)
      (vx (spec_offset f64_cos_dec f64_radians
             (ra, dec, 727%Z) (ra0, dec0, 843%Z))) = false /\
    vy p = vy (spec_offset f64_cos_dec f64_radians
                 (ra, dec, 727%Z) (ra0, dec0, 843%Z)) /\
    vz p = vz (spec_offset f64_cos_dec f64_radians
                 (ra, dec, 727%Z) (ra0, dec0, 843%Z)).
Proof. do 6 eexists. repeat split; vm_compute; reflexivity. Qed.

(** Zooming out and back in from the initial view (-150, 150) restores it
    bit for bit; from (0.1, 0.7) the lower limit comes back two units in
    the last place higher. *)
Lemma zoom_round_trip_f64 :
  rescale (PrimFloat.div 1 (lit 12 10))
    (rescale (lit 12 10) ((-150)%float, 150%float))
  = ((-150)%float, 150%float) /\
  rescale (PrimFloat.div 1 (lit 12 10))
    (rescale (lit 12 10) (lit 1 10 : float, lit 7 10 : float))
  = (0x1.999999999999cp-4%float, lit 7 10).
Proof. split; vm_compute; reflexivity. Qed.

(** C7, the sentence as written fails.  In a run of the program on the
    sample inputs the second tail point lies nearer NGC 3628 than the
    first, and its marker, in the scatter layer [plot_tidal_tail] draws, is
    the smaller and the fainter of the two. *)
Lemma nearer_tail_point_is_smaller_and_fainter :
  exists ps ngc tail sizes alphas,
    get_positions f64_cos_dec f64_radians = Ok ps /\
    dict_find "NGC 3628" ps = Some ngc /\
    generate Config sample_draws ps = Ok tail /\
    tail_style Config ngc tail = Ok (sizes, alphas) /\
    PrimFloat.ltb (norm (vsub (nth 1 tail ngc) ngc))
                  (norm (vsub (nth 0 tail ngc) ngc)) = true /\
    PrimFloat.ltb (nth 1 sizes 0%float) (nth 0 sizes 0%float) = true /\
    PrimFloat.ltb (nth 1 alphas 0%float) (nth 0 alphas 0%float) = true /\
    exists self',
      plot_tidal_tail sample_draws
        {| config := Config; positions := ps; ax := new_axes |}
      = Ok self' /\
      artists (ax self') = [Scatter tail "#888888" sizes alphas].
Proof.
  do 5 eexists.
  split; [vm_compute; reflexivity |].
  split; [reflexivity |].
  split; [vm_compute; reflexivity |].
  split; [vm_compute; reflexivity |].
  split; [vm_compute; reflexivity |].
  split; [vm_compute; reflexivity |].
  split; [vm_compute; reflexivity |].
  eexists. split; [vm_compute; reflexivity | reflexivity].
Qed.

(** The edges of the triangle: the difference of two centered positions
    and the difference of the two offsets from NGC 3628 agree, in each
    component, to within 2^-45 kpc. *)
Lemma edge_differences_f64 :
  exists rel ps,
    get_positions_relative_to_ngc3628 f64_cos_dec f64_radians = Ok rel /\
    get_positions f64_cos_dec f64_radians = Ok ps /\
    forallb
      (fun e : nat * nat =>
         let d :=
           vsub (vsub (nth (snd e) (values ps) vzero) (nth (fst e) (values ps) vzero))
                (vsub (nth (snd e) (values rel) vzero) (nth (fst e) (values rel) vzero)) in
         PrimFloat.ltb (PrimFloat.abs (vx d)) 0x1p-45%float &&
         PrimFloat.ltb (PrimFloat.abs (vy d)) 0x1p-45%float &&
         PrimFloat.ltb (PrimFloat.abs (vz d)) 0x1p-45%float)
      [(0, 1); (1, 2); (2, 0)]%nat = true.
Proof. do 2 eexists. repeat split; vm_compute; reflexivity. Qed.

(* ------------------------------------------------------------------ *)
(** * The conventions hold in exact arithmetic *)

Section ExactConventions.
Variables np_cos np_radians : R -> R.
Local Open Scope string_scope.
Local Open Scope R_scope.

Lemma ltb_R_true (a b : R) : a < b -> (a <? b)%num = true.
Proof.
  intros Hlt. cbn [n_ltb Num_R]. destruct (Rlt_dec a b); [reflexivity | contradiction].
Qed.

(** With a positive cosine every assertion of [verify_conventions] passes
    and the function returns True. *)
Lemma verify_conventions_passes :
  (forall dec, dict_find "NGC 3628" (@DEC R _) = Some dec ->
               0 < np_cos (np_radians dec)) ->
  verify_conventions np_cos np_radians = Ok true.
Proof.
  intros Hcos. specialize (Hcos _ eq_refl).
  unfold verify_conventions. rewrite get_positions_eval.
  cbn [bind for_each String.eqb Ascii.eqb Bool.eqb vx vy vz vsub vzip].
  revert Hcos.
  generalize (np_cos
                (np_radians (of_Z 13 + of_Z 35 / of_Z 60 + of_Z 23 / of_Z 3600)%num)).
  intros c Hc.
  rewrite !ltb_R_true; [reflexivity | to_R; lra ..].
Qed.
End ExactConventions.

(* ------------------------------------------------------------------ *)
(** * The theorems at concrete inputs *)

(** The sample cosine is finite, so the reference offset is zero. *)
Lemma reference_offset_is_exactly_zero_witness :
  exists rel p,
    get_positions_relative_to_ngc3628 f64_cos_dec f64_radians = Ok rel /\
    dict_find "NGC 3628"%string rel = Some p /\
    PrimFloat.eqb (vx p) 0 = true /\ vy p = 0%float /\ vz p = 0%float.
Proof.
  apply (reference_offset_is_exactly_zero f64_cos_dec f64_radians).
  intros dec _. reflexivity.
Defined.

(** A tail generated in binary64 around the origin. *)
Lemma generate_returns_tail_points_witness :
  exists tail : list (vec3 float),
    generate Config sample_draws
      [("NGC 3628"%string, Vec3 0%float 0%float 0%float)] = Ok tail /\
    List.length tail = 2500%nat.
Proof.
  apply (@generate_returns_tail_points float _ sample_draws _
           (Vec3 0%float 0%float 0%float)).
  reflexivity.
Defined.

(** The configuration of the program has a direction and a length that
    are not zero. *)
Lemma tail_noise_is_perpendicular_witness :
  (0 < dot (TAIL_DIRECTION (@Config R _)) (TAIL_DIRECTION (@Config R _)))%R /\
  TAIL_LENGTH (@Config R _) <> 0%R /\
  Forall (fun row =>
            dot row (tail_dir_unit Config) = 0%R /\
            dot row (tail_direction Config) = 0%R /\
            dot row (TAIL_DIRECTION Config) = 0%R)
         (tail_noise Config sample_draws_R).
Proof.
  assert (0 < dot (TAIL_DIRECTION (@Config R _)) (TAIL_DIRECTION (@Config R _)))%R
    as HD by (cbv [Config TAIL_DIRECTION]; to_R; lra).
  assert (TAIL_LENGTH (@Config R _) <> 0%R)
    as HL by (cbv [Config TAIL_LENGTH]; to_R; lra).
  split; [exact HD |]. split; [exact HL |].
  exact (tail_noise_is_perpendicular Config sample_draws_R HD HL).
Defined.

(** The plotter right after [setup_axes], with the view (-150, 150) on
    each axis. *)
Lemma zoom_out_then_in_restores_limits_witness :
  ZOOM_SCALE
    (config (setup_axes {| config := @Config R _; positions := []; ax := new_axes |}))
  <> 0%R /\
  on_scroll "up"
    (on_scroll "down"
       (setup_axes {| config := @Config R _; positions := []; ax := new_axes |}))
  = setup_axes {| config := @Config R _; positions := []; ax := new_axes |}.
Proof.
  assert (ZOOM_SCALE
            (config (setup_axes
                       {| config := @Config R _; positions := []; ax := new_axes |}))
          <> 0%R) as Hz
      by (cbv [setup_axes draw set_lim3d config Config ZOOM_SCALE]; to_R; lra).
  split; [exact Hz |].
  exact (proj1 (zoom_out_then_in_restores_limits _ Hz)).
Defined.

(* ------------------------------------------------------------------ *)
(** * Beyond the conventions: errors, shapes and layers

    What the rest of the code does at its edges: which exception a missing
    key or a short table raises, which artists each drawing method puts on
    the axes, and that the whole plot goes through. *)

Section TailEdges.
Context {T : Type} `{Num T}.
Local Open Scope string_scope.
Local Open Scope num_scope.

Lemma tail_style_run (cfg : Config_t T) (ngc_pos : vec3 T)
    (tail : list (vec3 T)) :
  tail <> [] ->
  exists sizes alphas,
    tail_style cfg ngc_pos tail = Ok (sizes, alphas) /\
    List.length sizes = List.length tail /\
    List.length alphas = List.length tail.
Proof.
  intros Hne. destruct tail as [| p tail]; [contradiction |].
  unfold tail_style. cbn [map np_max bind].
  do 2 eexists. split; [reflexivity |].
  cbn [List.length]. now rewrite !length_map.
Qed.

(** The style of an empty cloud cannot be computed: [distances.max()] has
    nothing to take the maximum of and raises ValueError.  For any other
    cloud there is one size and one opacity per point. *)
Theorem tail_style_lengths (cfg : Config_t T) (ngc_pos : vec3 T)
    (tail : list (vec3 T)) :
  (tail = [] -> tail_style cfg ngc_pos tail = Raise ValueError) /\
  (tail <> [] ->
   exists sizes alphas,
     tail_style cfg ngc_pos tail = Ok (sizes, alphas) /\
     List.length sizes = List.length tail /\
     List.length alphas = List.length tail).
Proof.
  split; [intros ->; reflexivity | apply tail_style_run].
Qed.

(** [generate] raises KeyError("NGC 3628") exactly when the positions it is
    given have no entry for NGC 3628: the lookup is its first statement and
    its only one. *)
Theorem generate_key_error (cfg : Config_t T) (rs : draws T)
    (galaxy_positions : dict (vec3 T)) :
  dict_find "NGC 3628" galaxy_positions = None <->
  generate cfg rs galaxy_positions = Raise (KeyError "NGC 3628").
Proof.
  split.
  - intros Hnone. unfold generate, dict_get. now rewrite Hnone.
  - intros Hraise.
    destruct (dict_find "NGC 3628" galaxy_positions) as [ngc |] eqn:Hfind;
      [| reflexivity].
    destruct (generate_length cfg rs galaxy_positions Hfind) as (tail & Hok & _).
    rewrite Hok in Hraise. discriminate.
Qed.

Lemma plot_tidal_tail_run (rs : draws T) (self : LeoTripletPlotter T)
    (ngc_pos : vec3 T) :
  dict_find "NGC 3628" (positions self) = Some ngc_pos ->
  TAIL_POINTS (config self) <> 0%nat ->
  exists tail sizes alphas,
    plot_tidal_tail rs self
    = Ok (draw (Scatter tail (TAIL_COLOR (config self)) sizes alphas) self) /\
    List.length tail = TAIL_POINTS (config self) /\
    List.length sizes = TAIL_POINTS (config self) /\
    List.length alphas = TAIL_POINTS (config self).
Proof.
  intros Hngc Hpos.
  destruct (generate_length (config self) rs (positions self) Hngc)
    as (tail & Hok & Hlen).
  assert (tail <> []) as Hne by (intros ->; cbn in Hlen; congruence).
  destruct (tail_style_run (config self) ngc_pos Hne)
    as (sizes & alphas & Hstyle & Hs & Ha).
  exists tail, sizes, alphas.
  split; [| repeat split; congruence].
  unfold plot_tidal_tail. rewrite Hok. cbn [bind].
  unfold dict_get. rewrite Hngc. cbn [bind]. rewrite Hstyle. reflexivity.
Qed.

(** A tail of no point is not an empty layer but an error: with
    TAIL_POINTS = 0, [plot_tidal_tail] raises ValueError and draws
    nothing. *)
Theorem tail_layer_needs_points (rs : draws T) (self : LeoTripletPlotter T)
    (ngc_pos : vec3 T) :
  dict_find "NGC 3628" (positions self) = Some ngc_pos ->
  TAIL_POINTS (config self) = 0%nat ->
  plot_tidal_tail rs self = Raise ValueError.
Proof.
  intros Hngc Hzero.
  destruct (generate_length (config self) rs (positions self) Hngc)
    as (tail & Hok & Hlen).
  rewrite Hzero in Hlen. apply length_zero_iff_nil in Hlen. subst tail.
  unfold plot_tidal_tail. rewrite Hok. cbn [bind].
  unfold dict_get. rewrite Hngc. reflexivity.
Qed.
End TailEdges.

Section Drawing.
Context {T : Type} `{Num T}.
Local Open Scope string_scope.
Local Open Scope num_scope.

Lemma only_draws_refl (self : LeoTripletPlotter T) : only_draws self self [].
Proof. unfold only_draws. now rewrite app_nil_r. Qed.

Lemma only_draws_draw (a : artist T) (self : LeoTripletPlotter T) :
  only_draws self (draw a self) [a].
Proof. unfold only_draws. now cbn. Qed.

Lemma only_draws_trans (s1 s2 s3 : LeoTripletPlotter T)
    (n1 n2 : list (artist T)) :
  only_draws s1 s2 n1 -> only_draws s2 s3 n2 -> only_draws s1 s3 (n1 ++ n2).
Proof.
  unfold only_draws.
  intros (C1 & P1 & A1) (C2 & P2 & A2).
  rewrite app_assoc, <- A1. repeat split; congruence.
Qed.

Lemma config_draw (a : artist T) (self : LeoTripletPlotter T) :
  config (draw a self) = config self.
Proof. reflexivity. Qed.

Lemma plot_galaxies_loop (ps : dict (vec3 T)) :
  forall self,
    Forall (fun entry => dict_find (fst entry) (COLORS (config self)) <> None) ps ->
    exists self',
      for_each ps
        (fun self '(name, pos) =>
           color <- dict_get name (COLORS (config self)) ;;
           let self :=
             draw (Scatter [pos] color [GALAXY_SIZE (config self)] [#1]) self in
           Ok (draw (Text pos ("  " ++ name)) self))
        self = Ok self' /\
      only_draws self self' (flat_map (galaxy_artists (config self)) ps).
Proof.
  induction ps as [| [name pos] ps IH]; intros self Hall.
  - exists self. split; [reflexivity | apply only_draws_refl].
  - inversion Hall as [| ? ? Hhd Htl]; subst. cbn [fst] in Hhd.
    destruct (dict_find name (COLORS (config self))) as [color |] eqn:Hc;
      [| contradiction].
    cbn [for_each]. unfold dict_get at 1. rewrite Hc. cbn [bind].
    set (s1 := draw _ (draw _ self)).
    assert (only_draws self s1
              [Scatter [pos] color [GALAXY_SIZE (config self)] [#1];
               Text pos ("  " ++ name)]) as H1
        by (eapply (only_draws_trans (n1 := [_]) (n2 := [_]));
            apply only_draws_draw).
    destruct (IH s1) as (self' & Hrun & H2).
    { replace (config s1) with (config self) by reflexivity. exact Htl. }
    exists self'. split; [exact Hrun |].
    cbn [flat_map]. unfold galaxy_artists at 1. cbn [fst snd]. rewrite Hc.
    replace (config s1) with (config self) in H2 by reflexivity.
    eapply only_draws_trans; eassumption.
Qed.

Lemma galaxy_artists_length (cfg : Config_t T) (ps : dict (vec3 T)) :
  Forall (fun entry => dict_find (fst entry) (COLORS cfg) <> None) ps ->
  List.length (flat_map (galaxy_artists cfg) ps) = (2 * List.length ps)%nat.
Proof.
  induction ps as [| [name pos] ps IH]; intros Hall.
  - reflexivity.
  - inversion Hall as [| ? ? Hhd Htl]; subst. cbn [fst] in Hhd.
    cbn [flat_map]. rewrite length_app, (IH Htl).
    unfold galaxy_artists. cbn [fst snd].
    destruct (dict_find name (COLORS cfg)); [cbn; lia | contradiction].
Qed.

(** When the colour table knows every galaxy of the positions,
    [plot_galaxies] returns and has drawn, on top of what was drawn before
    and for each galaxy in dictionary order, a marker at its position and a
    label with its name: two artists per galaxy. *)
Theorem plot_galaxies_draws_each (self : LeoTripletPlotter T) :
  Forall (fun entry => dict_find (fst entry) (COLORS (config self)) <> None)
         (positions self) ->
  exists self',
    plot_galaxies self = Ok self' /\
    artists (ax self')
    = (artists (ax self)
       ++ flat_map (galaxy_artists (config self)) (positions self))%list /\
    List.length (artists (ax self'))
    = (List.length (artists (ax self)) + 2 * List.length (positions self))%nat.
Proof.
  intros Hall. destruct (plot_galaxies_loop _ Hall) as (self' & Hrun & Hd).
  destruct Hd as (_ & _ & Ha).
  exists self'. split; [exact Hrun |]. split; [exact Ha |].
  now rewrite Ha, length_app, (galaxy_artists_length _ Hall).
Qed.

(** [plot_galaxies] raises KeyError for the first galaxy, in dictionary
    order, that the colour table does not know. *)
Theorem plot_galaxies_key_error (self : LeoTripletPlotter T)
    (before after : dict (vec3 T)) (name : string) (pos : vec3 T) :
  positions self = (before ++ (name, pos) :: after)%list ->
  Forall (fun entry => dict_find (fst entry) (COLORS (config self)) <> None)
         before ->
  dict_find name (COLORS (config self)) = None ->
  plot_galaxies self = Raise (KeyError name).
Proof.
  intros Hps Hbefore Hnone. unfold plot_galaxies. rewrite Hps. clear Hps.
  revert self Hbefore Hnone.
  induction before as [| [n0 p0] before IH]; intros self Hbefore Hnone.
  - cbn [app for_each]. unfold dict_get. now rewrite Hnone.
  - inversion Hbefore as [| ? ? Hhd Htl]; subst. cbn [fst] in Hhd.
    destruct (dict_find n0 (COLORS (config self))) as [color |] eqn:Hc;
      [| contradiction].
    cbn [app for_each]. unfold dict_get at 1. rewrite Hc. cbn [bind].
    apply IH; assumption.
Qed.

Lemma dict_find_app_fresh {A} (k : string) (v : A) (pre suf : dict A) :
  ~ In k (keys pre) -> dict_find k (pre ++ (k, v) :: suf)%list = Some v.
Proof.
  induction pre as [| [k0 v0] pre IH]; intros Hfresh; cbn [app dict_find].
  - now rewrite String.eqb_refl.
  - cbn [keys map fst In] in Hfresh.
    destruct (String.eqb_spec k k0) as [-> | _]; [tauto |].
    apply IH. unfold keys. tauto.
Qed.

(** With keys that are all different, as in a Python dict, looking every
    key up again gives the values in order. *)
Lemma coords_are_values (d : dict (vec3 T)) :
  NoDup (keys d) ->
  for_each (keys d)
    (fun acc n => p <- dict_get n d ;; Ok (acc ++ [p])%list) []
  = Ok (values d).
Proof.
  intros Hnd.
  assert (forall suf pre acc,
             d = (pre ++ suf)%list ->
             for_each (keys suf)
               (fun acc n => p <- dict_get n d ;; Ok (acc ++ [p])%list) acc
             = Ok (acc ++ values suf)%list) as Hloop.
  { induction suf as [| [k v] suf IH]; intros pre acc Hd;
      cbn [keys values map for_each].
    - now rewrite app_nil_r.
    - cbn [fst snd]. unfold dict_get at 1.
      assert (dict_find k d = Some v) as ->.
      { rewrite Hd. apply dict_find_app_fresh.
        rewrite Hd in Hnd. unfold keys in Hnd. rewrite map_app in Hnd.
        cbn [map fst] in Hnd. apply NoDup_remove_2 in Hnd.
        intros Hin. apply Hnd. apply in_or_app. now left. }
      cbn [bind].
      specialize (IH (pre ++ [(k, v)])%list (acc ++ [v])%list).
      rewrite <- app_assoc in IH. cbn [app] in IH.
      unfold keys, values in IH. rewrite (IH Hd).
      now rewrite <- app_assoc. }
  apply (Hloop d [] []). reflexivity.
Qed.

Lemma plot_triangle_run (self : LeoTripletPlotter T)
    (k1 k2 k3 : string) (p1 p2 p3 : vec3 T) (others : dict (vec3 T))
    (color : string) :
  positions self = (k1, p1) :: (k2, p2) :: (k3, p3) :: others ->
  NoDup (keys (positions self)) ->
  dict_find "triangle" (COLORS (config self)) = Some color ->
  exists self',
    plot_triangle self = Ok self' /\
    only_draws self self'
      [ Line p1 p2 color "--";
        DistanceText (vdivs (vadd p1 p2) #2) (norm (vsub p2 p1));
        Line p2 p3 color "--";
        DistanceText (vdivs (vadd p2 p3) #2) (norm (vsub p3 p2));
        Line p3 p1 color "--";
        DistanceText (vdivs (vadd p3 p1) #2) (norm (vsub p1 p3)) ].
Proof.
  intros Hps Hnd Hc. unfold plot_triangle.
  rewrite (coords_are_values _ Hnd). rewrite Hps.
  cbn [bind values map snd for_each index nth_error].
  unfold dict_get. repeat (rewrite ?config_draw, Hc; cbn [bind]).
  eexists; split; [reflexivity |].
  unfold only_draws; cbn. now rewrite <- !app_assoc.
Qed.

(** The triangle joins the first three galaxies of the positions, whatever
    their names, and ignores any further one: on top of what was drawn
    before come three dashed edges 1-2, 2-3, 3-1, each followed by a label
    at its midpoint carrying the norm of the difference of its end
    points. *)
Theorem plot_triangle_first_three (self : LeoTripletPlotter T)
    (k1 k2 k3 : string) (p1 p2 p3 : vec3 T) (others : dict (vec3 T))
    (color : string) :
  positions self = (k1, p1) :: (k2, p2) :: (k3, p3) :: others ->
  NoDup (keys (positions self)) ->
  dict_find "triangle" (COLORS (config self)) = Some color ->
  exists self',
    plot_triangle self = Ok self' /\
    artists (ax self')
    = (artists (ax self)
       ++ [ Line p1 p2 color "--";
            DistanceText (vdivs (vadd p1 p2) #2) (norm (vsub p2 p1));
            Line p2 p3 color "--";
            DistanceText (vdivs (vadd p2 p3) #2) (norm (vsub p3 p2));
            Line p3 p1 color "--";
            DistanceText (vdivs (vadd p3 p1) #2) (norm (vsub p1 p3)) ])%list.
Proof.
  intros Hps Hnd Hc.
  destruct (plot_triangle_run self Hps Hnd Hc) as (self' & Hrun & _ & _ & Ha).
  exists self'. split; [exact Hrun | exact Ha].
Qed.

(** With fewer than three galaxies [plot_triangle] raises IndexError: an
    edge asks for a galaxy that is not there. *)
Theorem plot_triangle_needs_three (self : LeoTripletPlotter T) :
  (List.length (positions self) < 3)%nat ->
  NoDup (keys (positions self)) ->
  dict_find "triangle" (COLORS (config self)) <> None ->
  plot_triangle self = Raise IndexError.
Proof.
  intros Hlen Hnd Hc. unfold plot_triangle.
  rewrite (coords_are_values _ Hnd).
  destruct (dict_find "triangle" (COLORS (config self))) as [color |] eqn:Hcol;
    [| contradiction].
  destruct (positions self) as [| [k1 p1] [| [k2 p2] [| [k3 p3] others]]];
    cbn [List.length] in Hlen; try lia;
    cbn [bind values map snd for_each index nth_error]; try reflexivity.
  unfold dict_get. rewrite Hcol. reflexivity.
Qed.
End Drawing.

Section WholePlot.
Context {T : Type} `{Num T}.
Variables np_cos np_radians : T -> T.
Local Open Scope string_scope.
Local Open Scope num_scope.

Lemma plot_center_draws (self : LeoTripletPlotter T) (color : string) :
  dict_find "center" (COLORS (config self)) = Some color ->
  exists self',
    plot_center self = Ok self' /\
    only_draws self self'
      [ Scatter [Vec3 #0 #0 #0] color [CENTER_SIZE (config self)] [#1];
        Text (Vec3 #0 #0 #5) "  Center" ].
Proof.
  intros Hc. unfold plot_center, dict_get. rewrite Hc. cbn [bind].
  eexists; split; [reflexivity |].
  eapply (only_draws_trans (n1 := [_]) (n2 := [_])); apply only_draws_draw.
Qed.

Lemma plot_earth_draws (self : LeoTripletPlotter T) (color : string) :
  dict_find "earth" (COLORS (config self)) = Some color ->
  exists self',
    plot_earth self = Ok self' /\
    only_draws self self'
      (Scatter [Vec3 #0 #0 #(-150)] color [#200] [lit 7 10]
       :: Text (Vec3 #0 #(-20) #(-150)) "EARTH"
       :: map (fun l => Line (vmap of_Z (fst l)) (vmap of_Z (snd l)) color ":")
              sight_lines).
Proof.
  intros Hc. unfold plot_earth, dict_get. rewrite Hc. cbn [bind].
  eexists; split; [reflexivity |].
  rewrite sight_lines_eval. unfold only_draws.
  cbn [fold_left map fst snd draw config positions ax artists xlim3d ylim3d zlim3d].
  do 2 (split; [reflexivity |]). now rewrite <- !app_assoc.
Qed.

Lemma setup_axes_sets_cube (self : LeoTripletPlotter T) :
  config (setup_axes self) = config self /\
  positions (setup_axes self) = positions self /\
  xlim3d (ax (setup_axes self))
  = (#(- AXIS_LIMIT (config self)), #(AXIS_LIMIT (config self))) /\
  ylim3d (ax (setup_axes self))
  = (#(- AXIS_LIMIT (config self)), #(AXIS_LIMIT (config self))) /\
  zlim3d (ax (setup_axes self))
  = (#(- AXIS_LIMIT (config self)), #(AXIS_LIMIT (config self))) /\
  exists note,
    artists (ax (setup_axes self)) = (artists (ax self) ++ [note])%list.
Proof. do 5 (split; [reflexivity |]). eexists; reflexivity. Qed.

Lemma get_positions_triplet :
  exists p1 p2 p3,
    get_positions np_cos np_radians
    = Ok [("NGC 3628", p1); ("M66", p2); ("M65", p3)].
Proof. do 3 eexists. apply get_positions_eval. Qed.

(** The plotter once the galaxies, the centre and the triangle are drawn. *)
Lemma plot_markers_and_triangle :
  exists s0 s1 s2 self ps,
    init np_cos np_radians Config = Ok s0 /\
    plot_galaxies s0 = Ok s1 /\
    plot_center s1 = Ok s2 /\
    plot_triangle s2 = Ok self /\
    get_positions np_cos np_radians = Ok ps /\
    config self = Config /\ positions self = ps /\
    List.length (artists (ax self)) = 14%nat.
Proof.
  destruct get_positions_triplet as (p1 & p2 & p3 & Hps).
  set (ps := [("NGC 3628", p1); ("M66", p2); ("M65", p3)]) in *.
  set (s0 := {| config := Config; positions := ps; ax := new_axes |}).
  assert (Forall (fun entry => dict_find (fst entry) (COLORS (config s0)) <> None)
                 (positions s0)) as Hall by (repeat constructor; discriminate).
  destruct (plot_galaxies_loop _ Hall) as (s1 & Hrun1 & Hd1).
  destruct Hd1 as (Hc1 & Hp1 & Ha1).
  destruct (@plot_center_draws s1 "#FFD700") as (s2 & Hrun2 & Hd2).
  { rewrite Hc1. reflexivity. }
  destruct Hd2 as (Hc2 & Hp2 & Ha2).
  destruct (@plot_triangle_run T _ s2 "NGC 3628" "M66" "M65" p1 p2 p3 []
              "#9370DB") as (s3 & Hrun3 & Hd3).
  { rewrite Hp2, Hp1. reflexivity. }
  { rewrite Hp2, Hp1. unfold s0, ps. cbn [positions keys map fst].
    repeat constructor; cbn [In]; intuition discriminate. }
  { rewrite Hc2, Hc1. reflexivity. }
  destruct Hd3 as (Hc3 & Hp3 & Ha3).
  exists s0, s1, s2, s3, ps.
  split; [unfold init; rewrite Hps; reflexivity |].
  split; [exact Hrun1 |]. split; [exact Hrun2 |]. split; [exact Hrun3 |].
  split; [exact Hps |].
  split; [rewrite Hc3, Hc2, Hc1; reflexivity |].
  split; [rewrite Hp3, Hp2, Hp1; reflexivity |].
  rewrite Ha3, Ha2, Ha1, !length_app, (galaxy_artists_length _ Hall). reflexivity.
Qed.

Lemma plot_run (rs : draws T) :
  exists self tail sizes alphas ps,
    plot np_cos np_radians Config rs = Ok self /\
    get_positions np_cos np_radians = Ok ps /\
    config self = Config /\ positions self = ps /\
    xlim3d (ax self) = (#(-150), #150) /\
    ylim3d (ax self) = (#(-150), #150) /\
    zlim3d (ax self) = (#(-150), #150) /\
    List.length (artists (ax self)) = 22%nat /\
    nth_error (artists (ax self)) 14 = Some (Scatter tail "#888888" sizes alphas) /\
    List.length tail = 2500%nat /\
    List.length sizes = 2500%nat /\ List.length alphas = 2500%nat.
Proof.
  destruct plot_markers_and_triangle
    as (s0 & s1 & s2 & s3 & ps & Hrun0 & Hrun1 & Hrun2 & Hrun3 & Hps & Hcfg3
        & Hpos3 & Hlen3).
  assert (exists ngc, dict_find "NGC 3628" (positions s3) = Some ngc) as (ngc & Hngc).
  { rewrite Hpos3. rewrite get_positions_eval in Hps. injection Hps as <-.
    eexists; reflexivity. }
  destruct (plot_tidal_tail_run rs s3 Hngc)
    as (tail & sizes & alphas & Hrun4 & Htail & Hsizes & Halphas);
    [rewrite Hcfg3; discriminate |].
  rewrite Hcfg3 in Hrun4, Htail, Hsizes, Halphas.
  set (s4 := draw (Scatter tail (TAIL_COLOR Config) sizes alphas) s3) in *.
  destruct (@plot_earth_draws s4 "#FF8C00") as (s5 & Hrun5 & Hd5).
  { unfold s4. rewrite config_draw, Hcfg3. reflexivity. }
  destruct (setup_axes_sets_cube s5) as (Hc6 & Hp6 & Hx6 & Hy6 & Hz6 & note & Ha6).
  destruct Hd5 as (Hc5 & Hp5 & Ha5).
  assert (config s5 = Config) as Hcfg5
      by (rewrite Hc5; unfold s4; now rewrite config_draw).
  exists (setup_axes s5), tail, sizes, alphas, ps.
  split.
  { unfold plot.
    rewrite Hrun0; cbn [bind]. rewrite Hrun1; cbn [bind].
    rewrite Hrun2; cbn [bind]. rewrite Hrun3; cbn [bind].
    rewrite Hrun4; cbn [bind]. fold s4. rewrite Hrun5. reflexivity. }
  split; [exact Hps |].
  split; [congruence |].
  split; [rewrite Hp6, Hp5; unfold s4; now cbn |].
  rewrite Hx6, Hy6, Hz6, Hcfg5.
  do 3 (split; [reflexivity |]).
  rewrite Ha6, Ha5. unfold s4. cbn [draw ax artists].
  split.
  { rewrite !length_app, Hlen3, sight_lines_eval. reflexivity. }
  split.
  { rewrite <- !app_assoc. rewrite nth_error_app2 by lia.
    rewrite Hlen3. reflexivity. }
  split; [exact Htail |]. split; [exact Hsizes | exact Halphas].
Qed.

(** With the configuration of the program, [plot] goes through for every
    outcome of the random draws and every value of the cosine, in either
    arithmetic: it raises nothing, keeps the positions [get_positions]
    computed, leaves the limits set to (-150, 150) on each axis, and has
    issued 22 drawing calls (scatter, text, plot), the fifteenth of which
    is the tail layer with 2500 points, sizes and opacities. *)
Theorem plot_completes (rs : draws T) :
  exists self tail sizes alphas ps,
    plot np_cos np_radians Config rs = Ok self /\
    get_positions np_cos np_radians = Ok ps /\
    config self = Config /\ positions self = ps /\
    xlim3d (ax self) = (#(-150), #150) /\
    ylim3d (ax self) = (#(-150), #150) /\
    zlim3d (ax self) = (#(-150), #150) /\
    List.length (artists (ax self)) = 22%nat /\
    nth_error (artists (ax self)) 14 = Some (Scatter tail "#888888" sizes alphas) /\
    List.length tail = 2500%nat /\
    List.length sizes = 2500%nat /\ List.length alphas = 2500%nat.
Proof. exact (plot_run rs). Qed.
End WholePlot.

(* ------------------------------------------------------------------ *)
(** * Exact arithmetic: where the tail points lie *)

Section ExactTailGeometry.
Local Open Scope string_scope.
Local Open Scope R_scope.

Lemma norm_tail_direction (cfg : Config_t R) :
  0 < dot (TAIL_DIRECTION cfg) (TAIL_DIRECTION cfg) ->
  0 <= TAIL_LENGTH cfg ->
  norm (tail_direction cfg) = TAIL_LENGTH cfg.
Proof.
  intros HD HL.
  pose proof (norm_pos HD) as Hn. pose proof (norm_square (TAIL_DIRECTION cfg)) as Hsq.
  unfold norm at 1. unfold tail_direction. rewrite dot_rescaled by lra.
  rewrite <- Hsq. cbn [n_sqrt Num_R].
  replace (norm (TAIL_DIRECTION cfg) * norm (TAIL_DIRECTION cfg) *
           (TAIL_LENGTH cfg / norm (TAIL_DIRECTION cfg) *
            (TAIL_LENGTH cfg / norm (TAIL_DIRECTION cfg))))
    with (TAIL_LENGTH cfg * TAIL_LENGTH cfg) by (field; lra).
  now apply sqrt_square.
Qed.

(** The direction the generator walks along has length TAIL_LENGTH, and
    the unit vector it projects the noise on is the configured direction
    divided by its own length: normalising a second time changes nothing. *)
Theorem tail_direction_has_configured_length (cfg : Config_t R) :
  0 < dot (TAIL_DIRECTION cfg) (TAIL_DIRECTION cfg) ->
  0 < TAIL_LENGTH cfg ->
  norm (tail_direction cfg) = TAIL_LENGTH cfg /\
  norm (tail_dir_unit cfg) = 1 /\
  tail_dir_unit cfg = vdivs (TAIL_DIRECTION cfg) (norm (TAIL_DIRECTION cfg)) /\
  tail_direction cfg = vmuls (tail_dir_unit cfg) (TAIL_LENGTH cfg).
Proof.
  intros HD HL.
  pose proof (norm_tail_direction cfg HD (Rlt_le _ _ HL)) as Hlen.
  pose proof (norm_pos HD) as Hn.
  assert (tail_dir_unit cfg
          = vdivs (TAIL_DIRECTION cfg) (norm (TAIL_DIRECTION cfg))) as Hunit.
  { unfold tail_dir_unit. cbv zeta. rewrite Hlen. unfold tail_direction.
    set (s := norm (TAIL_DIRECTION cfg)) in *.
    set (l := TAIL_LENGTH cfg) in *. clearbody s l.
    generalize (TAIL_DIRECTION cfg). intros [x y z].
    to_R. f_equal; field; lra. }
  split; [exact Hlen |]. split; [| split; [exact Hunit |]].
  - unfold norm. rewrite Hunit, (normalized_is_unit HD).
    cbn [n_sqrt Num_R]. apply sqrt_1.
  - rewrite Hunit. unfold tail_direction. reflexivity.
Qed.
End ExactTailGeometry.

Section Rows.
Context {T : Type} `{Num T}.
Local Open Scope string_scope.
Local Open Scope num_scope.

Lemma add_rows_nth (a b r : list (vec3 T)) :
  add_rows a b = Ok r ->
  forall i x y, nth_error a i = Some x -> nth_error b i = Some y ->
                nth_error r i = Some (vadd x y).
Proof.
  revert b r; induction a as [| x0 a IH]; intros [| y0 b] r Hr; cbn in Hr;
    try discriminate.
  - injection Hr as <-. intros [| i] x y Hx; discriminate Hx.
  - destruct (add_rows a b) as [r0 |] eqn:Hr0; [| discriminate].
    cbn in Hr. injection Hr as <-.
    intros [| i] x y Hx Hy; cbn in *.
    + congruence.
    + now apply (IH b r0).
Qed.

Lemma nth_error_map_seq {A} (f : nat -> A) (n i : nat) :
  (i < n)%nat -> nth_error (map f (seq 0 n)) i = Some (f i).
Proof.
  intros Hi. rewrite nth_error_map, nth_error_seq.
  apply Nat.ltb_lt in Hi. now rewrite Hi.
Qed.

(** Row [i] of the cloud: the base point on the tail axis, plus the noise
    row with its component along the tail removed, plus the curvature. *)
Lemma generate_row (cfg : Config_t T) (rs : draws T)
    (galaxy_positions : dict (vec3 T)) (ngc_pos : vec3 T) (i : nat) :
  dict_find "NGC 3628" galaxy_positions = Some ngc_pos ->
  (i < TAIL_POINTS cfg)%nat ->
  exists tail,
    generate cfg rs galaxy_positions = Ok tail /\
    nth_error tail i
    = Some (vadd
              (vadd (vadd ngc_pos (smulv (beta_draw rs i) (tail_direction cfg)))
                    (vsub (normal_draw rs i)
                          (smulv (dot (normal_draw rs i) (tail_dir_unit cfg))
                                 (tail_dir_unit cfg))))
              (Vec3 ((beta_draw rs i - lit 5 10) * #5)
                    ((beta_draw rs i - lit 5 10) * #8)
                    (n_abs (beta_draw rs i - lit 5 10) * #5))).
Proof.
  intros Hngc Hi.
  destruct (generate_length cfg rs galaxy_positions Hngc) as (tail & Hok & _).
  exists tail; split; [exact Hok |].
  unfold generate, dict_get in Hok. rewrite Hngc in Hok. cbn [bind] in Hok.
  destruct (add_rows _ (tail_noise cfg rs)) as [pn |] eqn:Hpn; [| discriminate].
  cbn [bind] in Hok.
  apply (add_rows_nth _ _ Hok).
  - apply (add_rows_nth _ _ Hpn).
    + unfold np_random_beta. rewrite map_map.
      exact (nth_error_map_seq
               (fun k => vadd ngc_pos (smulv (beta_draw rs k) (tail_direction cfg)))
               Hi).
    + unfold tail_noise, np_random_normal. rewrite map_map.
      exact (nth_error_map_seq
               (fun k => vsub (normal_draw rs k)
                           (smulv (dot (normal_draw rs k) (tail_dir_unit cfg))
                                  (tail_dir_unit cfg)))
               Hi).
  - unfold tail_curvature, np_random_beta. rewrite !map_map.
    exact (nth_error_map_seq
             (fun k => Vec3 ((beta_draw rs k - lit 5 10) * #5)
                            ((beta_draw rs k - lit 5 10) * #8)
                            (n_abs (beta_draw rs k - lit 5 10) * #5))
             Hi).
Qed.
End Rows.

Section ExactRows.
Local Open Scope string_scope.
Local Open Scope R_scope.

Lemma dot_vadd_l (a b u : vec3 R) : dot (vadd a b) u = dot a u + dot b u.
Proof. destruct a, b, u; to_R; ring. Qed.

Lemma dot_unit_direction (v : vec3 R) :
  0 < dot v v -> dot v (vdivs v (norm v)) = norm v.
Proof.
  intros Hv. pose proof (norm_pos Hv) as Hn. pose proof (norm_square v) as Hsq.
  revert Hn Hsq. generalize (norm v) as s. destruct v as [x y z]. to_R.
  intros s Hn Hsq.
  replace (x * (x / s) + y * (y / s) + z * (z / s))
    with ((x * x + y * y + z * z) / s) by (field; lra).
  rewrite <- Hsq. field; lra.
Qed.

Lemma dot_nonzero_vector (v u : vec3 R) : dot v u <> 0 -> 0 < dot v v.
Proof.
  destruct v as [x y z], u as [a b c]. to_R. intros Hne.
  destruct (Req_dec x 0) as [-> | Hx].
  - destruct (Req_dec y 0) as [-> | Hy].
    + destruct (Req_dec z 0) as [-> | Hz]; [exfalso; apply Hne; ring |].
      assert (0 < z * z) by (destruct (Rtotal_order z 0) as [? | [? | ?]]; nra).
      lra.
    + assert (0 < y * y) by (destruct (Rtotal_order y 0) as [? | [? | ?]]; nra).
      nra.
  - assert (0 < x * x) by (destruct (Rtotal_order x 0) as [? | [? | ?]]; nra).
    nra.
Qed.

Lemma along_tail_coordinate (cfg : Config_t R) (rs : draws R)
    (galaxy_positions : dict (vec3 R)) (ngc_pos : vec3 R) (i : nat) :
  dict_find "NGC 3628" galaxy_positions = Some ngc_pos ->
  (i < TAIL_POINTS cfg)%nat ->
  0 < dot (TAIL_DIRECTION cfg) (TAIL_DIRECTION cfg) ->
  0 < TAIL_LENGTH cfg ->
  exists tail p,
    generate cfg rs galaxy_positions = Ok tail /\
    nth_error tail i = Some p /\
    dot (vsub p ngc_pos) (tail_dir_unit cfg)
    = beta_draw rs i * TAIL_LENGTH cfg
      + dot (Vec3 ((beta_draw rs i - 1 / 2) * 5) ((beta_draw rs i - 1 / 2) * 8)
                  (Rabs (beta_draw rs i - 1 / 2) * 5))
            (tail_dir_unit cfg).
Proof.
  intros Hngc Hi HD HL.
  destruct (generate_row cfg rs galaxy_positions Hngc Hi) as (tail & Hok & Hrow).
  eexists; eexists. split; [exact Hok |]. split; [exact Hrow |].
  assert (TAIL_LENGTH cfg <> 0) as HL0 by lra.
  pose proof (tail_direction_nonzero cfg HD HL0) as Hdir.
  assert (dot (tail_direction cfg) (tail_dir_unit cfg) = TAIL_LENGTH cfg) as Hdu.
  { unfold tail_dir_unit. cbv zeta. rewrite (dot_unit_direction Hdir).
    apply norm_tail_direction; [exact HD | lra]. }
  assert (dot (vsub (normal_draw rs i)
                 (smulv (dot (normal_draw rs i) (tail_dir_unit cfg))
                    (tail_dir_unit cfg))) (tail_dir_unit cfg) = 0) as Hperp.
  { apply residual_orthogonal. unfold tail_dir_unit. now apply normalized_is_unit. }
  revert Hdu Hperp.
  generalize (tail_dir_unit cfg) as u. generalize (tail_direction cfg) as d.
  generalize (normal_draw rs i) as n. generalize (beta_draw rs i) as t.
  intros t [nx ny nz] [dx dy dz] [ux uy uz]. destruct ngc_pos as [gx gy gz].
  to_R. intros Hdu Hperp.
  replace (5 / 10) with (1 / 2) by lra.
  set (c := Rabs (t - 1 / 2)) in *. nra.
Qed.


(** For samples t in [0, 1] the curvature offsets stay in a box: at most
    2.5 kpc east or west, 4 kpc north or south, and between 0 and 2.5 kpc
    away from Earth (the third component never points toward Earth). *)
Theorem curvature_is_bounded (ts : list R) :
  Forall (fun t => 0 <= t <= 1) ts ->
  List.length (tail_curvature ts) = List.length ts /\
  Forall (fun c => - (5 / 2) <= vx c <= 5 / 2 /\ - 4 <= vy c <= 4 /\
                   0 <= vz c <= 5 / 2)
         (tail_curvature ts).
Proof.
  intros Hts. unfold tail_curvature. rewrite !length_map. split; [reflexivity |].
  rewrite map_map. apply Forall_map.
  eapply Forall_impl; [| exact Hts]. intros t Ht. cbn beta. to_R.
  assert (0 <= Rabs (t - 5 / 10) <= 1 / 2) as Habs.
  { split; [apply Rabs_pos | apply Rabs_le; lra]. }
  lra.
Qed.
End ExactRows.

(* ------------------------------------------------------------------ *)
(** * Exact arithmetic: sessions of scroll events *)

Section ExactZoom.
Local Open Scope string_scope.
Local Open Scope R_scope.

Lemma rescale_width (scale : R) (limits : R * R) :
  snd (rescale scale limits) - fst (rescale scale limits)
  = (snd limits - fst limits) * scale.
Proof. destruct limits; to_R; field. Qed.

Lemma rescale_one (limits : R * R) : rescale 1 limits = limits.
Proof. destruct limits; to_R; f_equal; field. Qed.

Lemma rescale_rescale (a b : R) (limits : R * R) :
  rescale a (rescale b limits) = rescale (b * a) limits.
Proof. destruct limits; to_R; f_equal; field. Qed.

Lemma zoom_factor_counts (zoom : R) (buttons : list string) :
  zoom_factor_R zoom buttons
  = (1 / zoom) ^ count_occ string_dec buttons "up"
    * zoom ^ (List.length buttons - count_occ string_dec buttons "up").
Proof.
  induction buttons as [| b bs IH]; cbn [zoom_factor_R count_occ List.length].
  - cbn. lra.
  - pose proof (count_occ_bound string_dec "up" bs) as Hle.
    destruct (string_dec b "up") as [-> | Hne].
    + cbn [String.eqb Ascii.eqb Bool.eqb]. rewrite IH.
      replace (S (List.length bs) - S (count_occ string_dec bs "up"))%nat
        with (List.length bs - count_occ string_dec bs "up")%nat by lia.
      cbn [pow]. ring.
    + apply String.eqb_neq in Hne. rewrite Hne, IH.
      replace (S (List.length bs) - count_occ string_dec bs "up")%nat
        with (S (List.length bs - count_occ string_dec bs "up")) by lia.
      cbn [pow]. ring.
Qed.

Lemma scroll_all_rescale (buttons : list string)
    (self : LeoTripletPlotter R) :
  let ups := count_occ string_dec buttons "up" in
  let others := (List.length buttons - ups)%nat in
  let factor := (1 / ZOOM_SCALE (config self)) ^ ups
                * ZOOM_SCALE (config self) ^ others in
  scroll_all buttons self
  = set_lim3d (rescale factor (xlim3d (ax self)))
              (rescale factor (ylim3d (ax self)))
              (rescale factor (zlim3d (ax self))) self.
Proof.
  cbv zeta. rewrite <- zoom_factor_counts.
  revert self. induction buttons as [| b bs IH]; intros self.
  - cbn [scroll_all fold_left zoom_factor_R]. rewrite !rescale_one.
    now destruct self as [cfg ps [drawn xl yl zl]].
  - unfold scroll_all in *. cbn [fold_left zoom_factor_R].
    rewrite IH. unfold on_scroll, set_lim3d.
    cbn [config positions ax artists xlim3d ylim3d zlim3d].
    now rewrite !rescale_rescale.
Qed.

(** With a ZOOM_SCALE that is not zero, a session of scroll events amounts
    to one rescale: with u the number of 'up' events and d the number of
    all others, each axis interval keeps its midpoint and has its width
    multiplied by (1/ZOOM_SCALE)^u x ZOOM_SCALE^d.  The order of the events
    does not matter. *)
Theorem scroll_sequence_is_one_rescale (buttons : list string)
    (self : LeoTripletPlotter R) :
  ZOOM_SCALE (config self) <> 0 ->
  let ups := count_occ string_dec buttons "up" in
  let others := (List.length buttons - ups)%nat in
  let factor := (1 / ZOOM_SCALE (config self)) ^ ups
                * ZOOM_SCALE (config self) ^ others in
  scroll_all buttons self
  = set_lim3d (rescale factor (xlim3d (ax self)))
              (rescale factor (ylim3d (ax self)))
              (rescale factor (zlim3d (ax self))) self /\
  forall limits,
    np_mean2 (rescale factor limits) = np_mean2 limits /\
    snd (rescale factor limits) - fst (rescale factor limits)
    = (snd limits - fst limits) * factor.
Proof.
  intros _. cbv zeta. split; [apply scroll_all_rescale |].
  intros limits. split; [apply rescale_keeps_midpoint | apply rescale_width].
Qed.

Lemma rescale_inside (s : R) (limits : R * R) :
  0 < s <= 1 -> fst limits <= snd limits ->
  fst limits <= fst (rescale s limits) /\
  fst (rescale s limits) <= snd (rescale s limits) /\
  snd (rescale s limits) <= snd limits.
Proof.
  destruct limits as [lo hi]. to_R. intros Hs Hle.
  assert (0 <= (hi - lo) * s <= hi - lo) by nra. lra.
Qed.

Lemma rescale_outside (s : R) (limits : R * R) :
  1 <= s -> fst limits <= snd limits ->
  fst (rescale s limits) <= fst limits /\
  snd limits <= snd (rescale s limits).
Proof.
  destruct limits as [lo hi]. to_R. intros Hs Hle.
  assert (hi - lo <= (hi - lo) * s) by nra. lra.
Qed.

(** With ZOOM_SCALE at least 1, scrolling up zooms in and any other scroll
    zooms out: on each axis the interval after an 'up' event lies inside
    the interval before it (and is still ordered), the interval after a
    'down' event contains it. *)
Theorem zoom_in_shrinks_zoom_out_grows (self : LeoTripletPlotter R)
    (lim : Axes3D R -> R * R) :
  1 <= ZOOM_SCALE (config self) ->
  In lim [@xlim3d R; @ylim3d R; @zlim3d R] ->
  fst (lim (ax self)) <= snd (lim (ax self)) ->
  (fst (lim (ax self)) <= fst (lim (ax (on_scroll "up" self))) /\
   fst (lim (ax (on_scroll "up" self))) <= snd (lim (ax (on_scroll "up" self))) /\
   snd (lim (ax (on_scroll "up" self))) <= snd (lim (ax self))) /\
  (fst (lim (ax (on_scroll "down" self))) <= fst (lim (ax self)) /\
   snd (lim (ax self)) <= snd (lim (ax (on_scroll "down" self)))).
Proof.
  intros Hz Hin Hle.
  assert (0 < 1 / ZOOM_SCALE (config self) <= 1) as Hinv.
  { split.
    - apply Rdiv_lt_0_compat; lra.
    - apply Rmult_le_reg_r with (ZOOM_SCALE (config self)); [lra |].
      field_simplify; lra. }
  destruct Hin as [<- | [<- | [<- | []]]];
    unfold on_scroll, set_lim3d;
    cbn [ax xlim3d ylim3d zlim3d String.eqb Ascii.eqb Bool.eqb];
    (split; [now apply rescale_inside | now apply rescale_outside]).
Qed.

(** After [setup_axes], whatever scroll events follow, the view is a cube
    centred on the centroid: the three axes share one interval (-h, h),
    with h = 150 x (10/12)^u x (12/10)^d positive. *)
Theorem view_stays_a_centred_cube (ps : dict (vec3 R)) (axes : Axes3D R)
    (buttons : list string) :
  exists h,
    0 < h /\
    h = 150 * ((10 / 12) ^ count_occ string_dec buttons "up"
               * (12 / 10) ^ (List.length buttons
                              - count_occ string_dec buttons "up")) /\
    xlim3d (ax (scroll_all buttons
                  (setup_axes {| config := Config; positions := ps; ax := axes |})))
    = (- h, h) /\
    ylim3d (ax (scroll_all buttons
                  (setup_axes {| config := Config; positions := ps; ax := axes |})))
    = (- h, h) /\
    zlim3d (ax (scroll_all buttons
                  (setup_axes {| config := Config; positions := ps; ax := axes |})))
    = (- h, h).
Proof.
  eexists. split; [| split; [reflexivity |]].
  - apply Rmult_lt_0_compat; [lra |].
    apply Rmult_lt_0_compat; apply pow_lt; lra.
  - rewrite scroll_all_rescale.
    cbn [setup_axes set_lim3d draw config positions ax artists xlim3d ylim3d zlim3d
         Config ZOOM_SCALE AXIS_LIMIT Z.opp].
    replace (1 / lit 12 10) with (10 / 12) by (to_R; lra).
    replace (@lit R _ 12 10) with (12 / 10) by (to_R; lra).
    generalize ((10 / 12) ^ count_occ string_dec buttons "up"
                * (12 / 10) ^ (List.length buttons
                               - count_occ string_dec buttons "up")).
    intros k. to_R. repeat split; f_equal; field.
Qed.
End ExactZoom.

(* ------------------------------------------------------------------ *)
(** * Exact arithmetic: the verification and the whole run *)

Section ExactConventionsMore.
Local Open Scope string_scope.
Local Open Scope R_scope.

Lemma ltb_R_false (a b : R) : ~ a < b -> (a <? b)%num = false.
Proof.
  intros Hge. cbn [n_ltb Num_R]. destruct (Rlt_dec a b); [contradiction | reflexivity].
Qed.

Lemma verify_conventions_fails (np_cos np_radians : R -> R) :
  (forall dec, dict_find "NGC 3628" (@DEC R _) = Some dec ->
               np_cos (np_radians dec) <= 0) ->
  verify_conventions np_cos np_radians
  = Raise (AssertionError "M66 should be East of center").
Proof.
  intros Hcos. specialize (Hcos _ eq_refl).
  unfold verify_conventions. rewrite get_positions_eval.
  cbn [bind for_each String.eqb Ascii.eqb Bool.eqb vx vy vz vsub vzip].
  revert Hcos.
  generalize (np_cos
                (np_radians (of_Z 13 + of_Z 35 / of_Z 60 + of_Z 23 / of_Z 3600)%num)).
  intros c Hc.
  rewrite ltb_R_true by (to_R; lra). cbn [assert bind].
  rewrite ltb_R_false by (to_R; lra). reflexivity.
Qed.

(** In exact arithmetic the verification passes exactly when the cosine
    of the reference declination is positive: then every assertion holds
    and the function returns True; otherwise the first assertion to fail
    is "M66 should be East of center". *)
Theorem verify_conventions_needs_positive_cosine (np_cos np_radians : R -> R) :
  exists dec,
    dict_find "NGC 3628" (@DEC R _) = Some dec /\
    (0 < np_cos (np_radians dec) ->
     verify_conventions np_cos np_radians = Ok true) /\
    (np_cos (np_radians dec) <= 0 ->
     verify_conventions np_cos np_radians
     = Raise (AssertionError "M66 should be East of center")).
Proof.
  eexists. split; [reflexivity |]. split; intros Hc.
  - apply verify_conventions_passes. intros dec [= <-]. exact Hc.
  - apply verify_conventions_fails. intros dec [= <-]. exact Hc.
Qed.

Lemma cos_dec_positive (dec : R) :
  dict_find "NGC 3628" (@DEC R _) = Some dec -> 0 < cos (radians_R dec).
Proof.
  intros [= <-]. pose proof PI_RGT_0 as Hpi.
  apply cos_gt_0; unfold radians_R; to_R; nra.
Qed.

(** With the cosine and the degree-to-radian conversion of real analysis,
    [verify_conventions] returns True: all five assertions hold for the
    tables of the program. *)
Theorem verify_conventions_returns_true :
  verify_conventions cos radians_R = Ok true.
Proof. apply verify_conventions_passes. exact cos_dec_positive. Qed.

(** [main] in exact arithmetic: with a positive cosine the verification
    passes and the plot is drawn, 22 artists in the view (-150, 150); with
    any other cosine [main] raises the assertion error of M66 and nothing
    is drawn.  With the cosine of real analysis it completes. *)
Theorem main_outcome (np_cos np_radians : R -> R) (rs : draws R) :
  (exists dec,
     dict_find "NGC 3628" (@DEC R _) = Some dec /\
     (0 < np_cos (np_radians dec) ->
      exists self,
        main np_cos np_radians rs = Ok self /\
        plot np_cos np_radians Config rs = Ok self /\
        List.length (artists (ax self)) = 22%nat /\
        xlim3d (ax self) = (-150, 150)) /\
     (np_cos (np_radians dec) <= 0 ->
      main np_cos np_radians rs
      = Raise (AssertionError "M66 should be East of center"))) /\
  exists self, main cos radians_R rs = Ok self.
Proof.
  split.
  - eexists. split; [reflexivity |]. split; intros Hc.
    + destruct (plot_run np_cos np_radians rs)
        as (self & tail & sizes & alphas & ps & Hrun & _ & _ & _ & Hx & _ & _
            & Hlen & _).
      exists self. unfold main.
      rewrite verify_conventions_passes by (intros dec [= <-]; exact Hc).
      cbn [bind]. split; [exact Hrun |]. split; [exact Hrun |].
      split; [exact Hlen | exact Hx].
    + unfold main.
      rewrite verify_conventions_fails by (intros dec [= <-]; exact Hc).
      reflexivity.
  - destruct (plot_run cos radians_R rs) as (self & _ & _ & _ & _ & Hrun & _).
    exists self. unfold main.
    rewrite verify_conventions_passes by exact cos_dec_positive.
    exact Hrun.
Qed.
End ExactConventionsMore.

(* ------------------------------------------------------------------ *)
(** * The further theorems at concrete inputs *)

(** The tail of the program: with every sample at one half the first
    point lies 43 kpc along the tail, away from NGC 3628. *)
Lemma tail_markers_grow_with_distance_witness :
  exists tail dmax self',
    generate Config half_draws_R [("NGC 3628"%string, Vec3 0 0 0)%R] = Ok tail /\
    List.length tail = 2500%nat /\
    (0 < dmax)%R /\
    plot_tidal_tail half_draws_R
      {| config := Config; positions := [("NGC 3628"%string, Vec3 0 0 0)%R];
         ax := new_axes |}
    = Ok self' /\
    artists (ax self')
    = [Scatter tail "#888888"
         (map (fun p => 1 + 3 * (norm (vsub p (Vec3 0 0 0)) / dmax))%R tail)
         (map (fun p => TAIL_ALPHA Config
                        * (5 / 10 + 5 / 10 * norm (vsub p (Vec3 0 0 0)) / dmax))%R
              tail)].
Proof.
  assert (0 < TAIL_POINTS (@Config R _))%nat as Hi
      by (cbn [Config TAIL_POINTS]; lia).
  assert (0 < dot (TAIL_DIRECTION (@Config R _)) (TAIL_DIRECTION (@Config R _)))%R
    as HD by (cbv [Config TAIL_DIRECTION]; to_R; lra).
  assert (0 < TAIL_LENGTH (@Config R _))%R
    as HL by (cbv [Config TAIL_LENGTH]; to_R; lra).
  destruct (@along_tail_coordinate (@Config R _) half_draws_R
              [("NGC 3628"%string, Vec3 0 0 0)%R] (Vec3 0 0 0)%R 0%nat
              eq_refl Hi HD HL) as (tail0 & p0 & Hgen0 & Hnth & Hdot).
  destruct (@tail_markers_grow_with_distance half_draws_R
              [("NGC 3628"%string, Vec3 0 0 0)%R] new_axes (Vec3 0 0 0)%R eq_refl)
    as (tail & dmax & self' & Hgen & Hlen & _ & Hpos & _ & _ & Hrun & Hart & _).
  - exists tail0, p0. split; [exact Hgen0 |].
    split; [eapply nth_error_In; exact Hnth |].
    apply norm_pos. apply dot_nonzero_vector with (u := tail_dir_unit Config).
    rewrite Hdot. cbn [half_draws_R beta_draw Config TAIL_LENGTH].
    replace (1 / 2 - 1 / 2)%R with 0%R by lra. rewrite Rabs_R0.
    generalize (tail_dir_unit (@Config R _)). intros [ux uy uz]. to_R. lra.
  - exists tail, dmax, self'.
    split; [exact Hgen |]. split; [exact Hlen |]. split; [exact Hpos |].
    split; [exact Hrun | exact Hart].
Defined.

Lemma tail_layer_needs_points_witness :
  plot_tidal_tail sample_draws no_tail_plotter = Raise ValueError.
Proof.
  exact (@tail_layer_needs_points float _ sample_draws no_tail_plotter
           (Vec3 0%float 0%float 0%float) eq_refl eq_refl).
Defined.

Lemma plot_galaxies_draws_each_witness :
  exists self',
    plot_galaxies sample_plotter = Ok self' /\
    List.length (artists (ax self')) = 6%nat.
Proof.
  destruct (@plot_galaxies_draws_each float _ sample_plotter)
    as (self' & Hrun & _ & Hlen).
  - repeat constructor; discriminate.
  - exists self'. split; [exact Hrun | exact Hlen].
Defined.

Lemma plot_galaxies_key_error_witness :
  plot_galaxies stranger_plotter = Raise (KeyError "M81").
Proof.
  apply (@plot_galaxies_key_error float _ stranger_plotter
           [("NGC 3628"%string, Vec3 0%float 0%float 0%float)]
           [("M65"%string, Vec3 0%float 1%float 0%float)]
           "M81" (Vec3 1%float 0%float 0%float)).
  - reflexivity.
  - repeat constructor; discriminate.
  - reflexivity.
Defined.

Lemma plot_triangle_first_three_witness :
  exists self',
    plot_triangle sample_plotter = Ok self' /\
    List.length (artists (ax self')) = 6%nat.
Proof.
  destruct (@plot_triangle_first_three float _ sample_plotter
              "NGC 3628" "M66" "M65"
              (Vec3 0%float 0%float 0%float) (Vec3 1%float 0%float 0%float)
              (Vec3 0%float 1%float 0%float) [] "#9370DB")
    as (self' & Hrun & Hd).
  - reflexivity.
  - cbn [sample_plotter positions keys map fst].
    repeat constructor; cbn [In]; intuition discriminate.
  - reflexivity.
  - exists self'. split; [exact Hrun |]. rewrite Hd. reflexivity.
Defined.

Lemma plot_triangle_needs_three_witness :
  plot_triangle pair_plotter = Raise IndexError.
Proof.
  apply plot_triangle_needs_three.
  - cbn; lia.
  - cbn [pair_plotter positions keys map fst].
    repeat constructor; cbn [In]; intuition discriminate.
  - discriminate.
Defined.

Lemma tail_direction_has_configured_length_witness :
  norm (tail_direction (@Config R _)) = 86%R /\
  norm (tail_dir_unit (@Config R _)) = 1%R.
Proof.
  destruct (@tail_direction_has_configured_length (@Config R _))
    as (Hlen & Hunit & _).
  - cbv [Config TAIL_DIRECTION]. to_R. lra.
  - cbv [Config TAIL_LENGTH]. to_R. lra.
  - split; [exact Hlen | exact Hunit].
Defined.


Lemma curvature_is_bounded_witness :
  Forall (fun c => (- (5 / 2) <= vx c <= 5 / 2 /\ - 4 <= vy c <= 4 /\
                    0 <= vz c <= 5 / 2)%R)
         (tail_curvature [0; 1 / 2; 1]%R).
Proof.
  apply (@curvature_is_bounded [0; 1 / 2; 1]%R).
  repeat constructor; lra.
Defined.

Lemma zoom_in_shrinks_zoom_out_grows_witness :
  (fst (xlim3d (ax sample_plotter_R))
   <= fst (xlim3d (ax (on_scroll "up" sample_plotter_R))))%R /\
  (snd (xlim3d (ax sample_plotter_R))
   <= snd (xlim3d (ax (on_scroll "down" sample_plotter_R))))%R.
Proof.
  destruct (@zoom_in_shrinks_zoom_out_grows sample_plotter_R (@xlim3d R))
    as ((Hin & _) & (_ & Hout)).
  - cbv [sample_plotter_R setup_axes draw set_lim3d config Config ZOOM_SCALE].
    to_R. lra.
  - now left.
  - cbv [sample_plotter_R setup_axes draw set_lim3d config Config AXIS_LIMIT
         ax xlim3d Z.opp]. to_R. lra.
  - split; [exact Hin | exact Hout].
Defined.

Lemma scroll_sequence_is_one_rescale_witness :
  ZOOM_SCALE (config sample_plotter_R) <> 0%R /\
  scroll_all ["up"; "down"; "up"]%string sample_plotter_R
  = set_lim3d
      (rescale ((1 / ZOOM_SCALE (config sample_plotter_R)) ^ 2
                * ZOOM_SCALE (config sample_plotter_R) ^ 1)%R
               (xlim3d (ax sample_plotter_R)))
      (rescale ((1 / ZOOM_SCALE (config sample_plotter_R)) ^ 2
                * ZOOM_SCALE (config sample_plotter_R) ^ 1)%R
               (ylim3d (ax sample_plotter_R)))
      (rescale ((1 / ZOOM_SCALE (config sample_plotter_R)) ^ 2
                * ZOOM_SCALE (config sample_plotter_R) ^ 1)%R
               (zlim3d (ax sample_plotter_R)))
      sample_plotter_R.
Proof.
  assert (ZOOM_SCALE (config sample_plotter_R) <> 0%R) as Hz
      by (cbv [sample_plotter_R setup_axes draw set_lim3d config Config ZOOM_SCALE];
          to_R; lra).
  split; [exact Hz |].
  exact (proj1 (@scroll_sequence_is_one_rescale ["up"; "down"; "up"]%string
                  sample_plotter_R Hz)).
Defined.
